(** * Profile commands of the Prefect CLI ([src/prefect/cli/profile.py])

    A shallow embedding of the commands [get], [set], [unset], [create],
    [rm], [rename] and [inspect], and the properties of the profile store
    and of the settings resolver that they implement.

    Python dictionaries keep insertion order and are objects with identity:
    the document [profiles] maps a profile name to a reference to the
    dictionary holding that profile's settings, and the dictionaries
    themselves live in a heap.  Strings are byte strings (UTF-8), values of
    settings are strings.  What the commands print on the console is left
    out, except for the message a command exits with and the values that
    [get], [ls] and [inspect] display. *)

From Stdlib Require Import Ascii Sorted.
From stdpp Require Import base list strings.

(** ** Python's insertion-ordered [dict] with [str] keys *)

Module PyDict.
(** The items in insertion order. *)
Abbreviation t V := (list (string * V)) (only parsing).

Section dict.
Context {V : Type}.

(** [list(d)]: the keys, in insertion order. *)
Definition keys (d : t V) : list string := d.*1.

(** [k in d] *)
Fixpoint contains (k : string) (d : t V) : bool :=
  match d with
  | [] => false
  | (k', _) :: d' => if String.eqb k k' then true else contains k d'
  end.

(** [d.get(k)]; [d[k]] is the same lookup, where [None] is a [KeyError]. *)
Fixpoint get (k : string) (d : t V) : option V :=
  match d with
  | [] => None
  | (k', v) :: d' => if String.eqb k k' then Some v else get k d'
  end.

(** [d[k] = v]: an existing key keeps its position, a new key goes last. *)
Fixpoint setitem (k : string) (v : V) (d : t V) : t V :=
  match d with
  | [] => [(k, v)]
  | (k', v') :: d' =>
      if String.eqb k k' then (k', v) :: d' else (k', v') :: setitem k v d'
  end.

(** The dictionary left by [d.pop(k)] or [del d[k]]: no binding of [k]
    stays. *)
Fixpoint remove (k : string) (d : t V) : t V :=
  match d with
  | [] => []
  | (k', v') :: d' =>
      if String.eqb k k' then remove k d' else (k', v') :: remove k d'
  end.

(** [d.pop(k)]: the value and the remaining dictionary; [None] is a
    [KeyError]. *)
Definition pop (k : string) (d : t V) : option (V * t V) :=
  match get k d with
  | Some v => Some (v, remove k d)
  | None => None
  end.

(** [{k: v for k, v in items}]: a dictionary built by inserting the items
    one after the other. *)
Definition of_items (items : list (string * V)) : t V :=
  fold_left (fun d kv => setitem kv.1 kv.2 d) items [].

(** A list of pairs is the contents of a dictionary when no key repeats. *)
Definition wf (d : t V) : Prop := NoDup (keys d).
End dict.
End PyDict.

(** ** [str.split] on a one-character separator *)

Fixpoint split_on (sep : ascii) (s : string) : list string :=
  match s with
  | EmptyString => [EmptyString]
  | String c s' =>
      if Ascii.eqb c sep then EmptyString :: split_on sep s'
      else match split_on sep s' with
           | hd :: tl => String c hd :: tl
           | [] => [String c EmptyString]
           end
  end.

(** Number of occurrences of a character, [s.count(c)]. *)
Fixpoint count_char (c : ascii) (s : string) : nat :=
  match s with
  | EmptyString => 0
  | String c' s' => (if Ascii.eqb c' c then 1 else 0) + count_char c s'
  end.

(** ** The state of a command

    [profiles] is the dictionary returned by [prefect.settings.load_profiles()]:
    profile name to a reference to that profile's dictionary of settings.
    [heap] holds the dictionary objects, a reference is an index into it.
    [file] is the document on disk. *)

Abbreviation settings := (PyDict.t string) (only parsing).
Abbreviation ref := nat (only parsing).

Record world : Type := World {
  profiles : PyDict.t ref;
  heap : list settings;
  file : list (string * settings)
}.

(** The dictionary a reference points to. *)
Definition deref (w : world) (r : ref) : settings := heap w !!! r.

(** The settings of profile [name] as the document shows them,
    [profiles[name]] read through the heap. *)
Definition settings_of (w : world) (name : string) : option settings :=
  deref w <$> PyDict.get name (profiles w).

(** The document by value: every profile with the contents of its
    dictionary, in storage order. *)
Definition snapshot (w : world) : list (string * settings) :=
  (fun p => (p.1, deref w p.2)) <$> profiles w.

(** How a command stops other than by returning.  [exit_with_error] and
    [exit_with_success] come from [prefect.cli.base], which prints the message
    and leaves the command; [typer.Exit] and [KeyError] are raised by the
    commands themselves.  Console output is not part of the state. *)
Inductive exn : Type :=
| ExitWithError (msg : string)
| ExitWithSuccess (msg : string)
| TyperExit (code : nat)
| KeyError (key : string).

Inductive result (A : Type) : Type :=
| Done (a : A)
| Raised (e : exn).
Global Arguments Done {A} a.
Global Arguments Raised {A} e.

(** A command body: it runs on a state and leaves a state, also when it
    raises (what was mutated before the exception stays mutated). *)
Definition cmd (A : Type) : Type := world → result A * world.

Definition ret {A} (a : A) : cmd A := λ w, (Done a, w).

Definition raise {A} (e : exn) : cmd A := λ w, (Raised e, w).

Definition bind {A B} (c : cmd A) (k : A → cmd B) : cmd B :=
  λ w, match c w with
       | (Done a, w') => k a w'
       | (Raised e, w') => (Raised e, w')
       end.

Notation "'do' x <- c ; k" := (bind c (λ x, k))
  (at level 10, x name, c at level 100, k at level 200).

(** [name in profiles] *)
Definition has_profile (name : string) : cmd bool :=
  λ w, (Done (PyDict.contains name (profiles w)), w).

(** [profiles[name]] *)
Definition profile_ref (name : string) : cmd ref :=
  λ w, match PyDict.get name (profiles w) with
       | Some r => (Done r, w)
       | None => (Raised (KeyError name), w)
       end.

(** [profiles[name] = r] *)
Definition bind_profile (name : string) (r : ref) : cmd unit :=
  λ w, (Done (), World (PyDict.setitem name r (profiles w)) (heap w) (file w)).

(** [profiles.pop(name)] *)
Definition pop_profile (name : string) : cmd ref :=
  λ w, match PyDict.pop name (profiles w) with
       | Some (r, d) => (Done r, World d (heap w) (file w))
       | None => (Raised (KeyError name), w)
       end.

(** A dictionary display [{}]: a new object. *)
Definition new_dict : cmd ref :=
  λ w, (Done (length (heap w)), World (profiles w) (heap w ++ [[]]) (file w)).

(** Reading the dictionary behind a reference. *)
Definition read (r : ref) : cmd settings := λ w, (Done (deref w r), w).

(** Mutating the dictionary behind a reference in place. *)
Definition mutate (r : ref) (f : settings → settings) : cmd unit :=
  λ w, (Done (), World (profiles w) (<[r := f (deref w r)]> (heap w)) (file w)).

(** Modelled from the spec: [prefect.settings.write_profiles] is not part of
    this file.  It serializes the full document and overwrites the backing
    file: the file then holds the document by value. *)
Definition write_profiles : cmd unit :=
  λ w, (Done (), World (profiles w) (heap w) (snapshot w)).

(** Modelled from the spec: [exit_with_error] of [prefect.cli.base] is not
    part of this file.  The CLI layer renders an error as a message and a
    non-zero exit code: the call does not return to the command. *)
Definition exit_with_error {A} (msg : string) : cmd A := raise (ExitWithError msg).

(** Modelled from the spec: [exit_with_success] of [prefect.cli.base] is not
    part of this file.  It ends the command with its message and the exit
    code 0. *)
Definition exit_with_success {A} (msg : string) : cmd A := raise (ExitWithSuccess msg).

(** The truth value Python gives an optional string argument in [if name:]:
    [None] and the empty string are false. *)
Definition truthy (name : option string) : option string :=
  match name with
  | Some s => if String.eqb s "" then None else Some s
  | None => None
  end.

(** [var, value = variable.split("=")]: the unpacking succeeds on exactly two
    parts and raises [ValueError] ([None]) otherwise. *)
Definition parse_variable (variable : string) : option (string * string) :=
  match split_on "=" variable with
  | [var; value] => Some (var, value)
  | _ => None
  end.

(** ** The commands *)

Section commands.
(** Python's [repr] on [str], the conversion [!r] of the messages. *)
Variable repr : string → string.

(** [get]; [profile_name] is [get_profile_context().name].  The value is
    [display_profiles], the dictionary handed to [toml.dumps]. *)
Definition get (profile_name : string) (names : list string)
  : cmd (PyDict.t ref) :=
  λ w,
    let names := if names is [] then [profile_name] else names in
    (Done (PyDict.of_items (filter (λ item, item.1 ∈ names) (profiles w))), w).

(** [ls]: the printed lines. *)
Definition ls (current : string) : cmd (list string) :=
  λ w,
    (Done ((λ name, if String.eqb name current then "* " +:+ name else name)
             <$> PyDict.keys (profiles w)), w).

(** First loop of [set]: every token is parsed before anything is stored. *)
Fixpoint parse_variables (variables : list string)
    (parsed_variables : list (string * string))
  : cmd (list (string * string)) :=
  match variables with
  | [] => ret parsed_variables
  | variable :: variables' =>
      match parse_variable variable with
      | Some parsed => parse_variables variables' (parsed_variables ++ [parsed])
      | None =>
          exit_with_error
            ("Failed to parse argument " +:+ repr variable
             +:+ ". Use the format 'VAR=VAL'.")
      end
  end.

(** Second loop of [set]: [env[var] = value] for every parsed pair. *)
Fixpoint assign_variables (env : ref) (parsed_variables : list (string * string))
  : cmd unit :=
  match parsed_variables with
  | [] => ret ()
  | (var, value) :: rest =>
      do _ <- mutate env (PyDict.setitem var value);
      assign_variables env rest
  end.

(** [set].  The third loop only prints a warning for the variables that
    are in [os.environ]. *)
Definition set (profile_name : string) (variables : list string) : cmd unit :=
  do env <- profile_ref profile_name;
  do parsed_variables <- parse_variables variables [];
  do _ <- assign_variables env parsed_variables;
  do _ <- write_profiles;
  exit_with_success ("Updated profile " +:+ repr profile_name).

(** The loop of [unset]: the membership test and the [pop] of one variable
    come before the test of the next. *)
Fixpoint unset_variables (profile_name : string) (env : ref)
    (variables : list string) : cmd unit :=
  match variables with
  | [] => ret ()
  | var :: variables' =>
      do current <- read env;
      if PyDict.contains var current then
        do _ <- mutate env (PyDict.remove var);
        unset_variables profile_name env variables'
      else
        exit_with_error
          ("Variable " +:+ repr var +:+ " not found in profile "
           +:+ repr profile_name +:+ ".")
  end.

Definition unset (profile_name : string) (variables : list string) : cmd unit :=
  do env <- profile_ref profile_name;
  do _ <- unset_variables profile_name env variables;
  do _ <- write_profiles;
  exit_with_success ("Updated profile " +:+ repr profile_name).

(** [create].  The message of the missing [--from] profile is not an
    f-string in the source: it is printed as it stands. *)
Definition create (name : string) (from_name : option string) : cmd unit :=
  do exists_ <- has_profile name;
  if exists_ then raise (TyperExit 1)
  else
    do _ <- match truthy from_name with
            | Some from_name =>
                do found <- has_profile from_name;
                if found then
                  do shared <- profile_ref from_name;
                  bind_profile name shared
                else exit_with_error "Profile {from_name!r} not found."
            | None =>
                do fresh <- new_dict;
                bind_profile name fresh
            end;
    write_profiles.

(** [rm] *)
Definition rm (name : string) : cmd unit :=
  do found <- has_profile name;
  if found then
    do _ <- pop_profile name;
    let verb := "Removed" in
    do verb <- (if String.eqb name "default" then
                  do fresh <- new_dict;
                  do _ <- bind_profile "default" fresh;
                  ret "Reset"
                else ret verb);
    do _ <- write_profiles;
    exit_with_success (verb +:+ " profile " +:+ repr name +:+ ".")
  else exit_with_error ("Profle " +:+ repr name +:+ " not found.").

(** [rename]: [profiles[new_name] = profiles.pop(name)] pops first. *)
Definition rename (name new_name : string) : cmd unit :=
  do found <- has_profile name;
  if found then
    do taken <- has_profile new_name;
    if taken then
      exit_with_error ("Profile " +:+ repr new_name +:+ " already exists.")
    else
      do moved <- pop_profile name;
      do _ <- bind_profile new_name moved;
      do _ <- write_profiles;
      exit_with_success
        ("Renamed profile " +:+ repr name +:+ " to " +:+ repr new_name +:+ ".")
  else exit_with_error ("Profle " +:+ repr name +:+ " not found.").
End commands.

(** ** [inspect]: the settings resolver *)

(** [{key: val for key, val in items if val != default_settings[key]}],
    item by item; the subscript raises [KeyError] on a key that the defaults
    do not have. *)
Fixpoint overrides_of (default_settings : settings)
    (items : list (string * string)) (acc : settings) : result settings :=
  match items with
  | [] => Done acc
  | (key, val) :: items' =>
      match PyDict.get key default_settings with
      | Some default_val =>
          overrides_of default_settings items'
            (if String.eqb val default_val then acc
             else PyDict.setitem key val acc)
      | None => Raised (KeyError key)
      end
  end.

(** ["env" if value == env_overrides.get(key) else "profile"] *)
Definition source_of (env_overrides : settings) (key value : string) : string :=
  match PyDict.get key env_overrides with
  | Some env_val => if String.eqb value env_val then "env" else "profile"
  | None => "profile"
  end.

(** The triples [(key, value, source)] of the loop over [current_overrides],
    in the order of the loop. *)
Definition override_entries
    (current_settings env_settings default_settings : settings)
  : result (list (string * string * string)) :=
  match overrides_of default_settings env_settings [] with
  | Raised e => Raised e
  | Done env_overrides =>
      match overrides_of default_settings current_settings [] with
      | Raised e => Raised e
      | Done current_overrides =>
          Done ((λ item, (item.1, item.2, source_of env_overrides item.1 item.2))
                  <$> current_overrides)
      end
  end.

(** [f"{key}='{value}'{source_blurb}"] *)
Definition setting_line (show_sources : bool) (entry : string * string * string)
  : string :=
  let '(key, value, source) := entry in
  let source_blurb :=
    if show_sources then " (from " +:+ source +:+ ")" else "" in
  key +:+ "='" +:+ value +:+ "'" +:+ source_blurb.

(** [sorted(default_settings.items())]: tuples compare by key, then value. *)
Definition item_le (a b : string * string) : bool :=
  match String.compare a.1 b.1 with
  | Lt => true
  | Gt => false
  | Eq => if String.compare a.2 b.2 is Gt then false else true
  end.

Fixpoint insert_item (x : string * string) (l : list (string * string))
  : list (string * string) :=
  match l with
  | [] => [x]
  | y :: l' => if item_le x y then x :: l else y :: insert_item x l'
  end.

Definition sorted (items : list (string * string)) : list (string * string) :=
  foldr insert_item [] items.

Section inspect.
Variable repr : string → string.

(** [inspect].  [profile_name] and [profile_settings] are the active
    profile of [get_profile_context()], [default_settings] and
    [env_settings] are [get_default_settings().dict()] and
    [get_settings_from_env().dict()].  The value is [output], the lines
    printed. *)
Definition inspect (profile_name : string)
    (profile_settings default_settings env_settings : settings)
    (name : option string) (show_defaults show_sources : bool)
  : cmd (list string) :=
  do selected <-
    match truthy name with
    | Some name =>
        do found <- has_profile name;
        if found then
          do r <- profile_ref name;
          do current_settings <- read r;
          ret (name, current_settings)
        else exit_with_error ("Profle " +:+ repr name +:+ " not found.")
    | None => ret (profile_name, profile_settings)
    end;
  match override_entries selected.2 env_settings default_settings with
  | Raised e => raise e
  | Done entries =>
      ret (["PREFECT_PROFILE=" +:+ repr selected.1]
           ++ (setting_line show_sources <$> entries)
           ++ (if show_defaults then
                 (λ item, setting_line show_sources (item, "defaults"))
                   <$> sorted default_settings
               else []))
  end.
End inspect.

(** ** The contract of the settings resolver

    [compute_overrides] as the specification words it, to compare with the
    loop of [inspect]: an entry for every key of [current] whose value
    differs from the value of that key in [defaults], in the order of
    [current]; the source is "env" when [env] has the key with the value of
    [current], and "profile" otherwise. *)
Definition compute_overrides_spec (current env defaults : settings)
  : list (string * string * string) :=
  (λ item, (item.1, item.2,
            if decide (PyDict.get item.1 env = Some item.2) then "env" else "profile"))
    <$> filter (λ item, PyDict.get item.1 defaults ≠ Some item.2) current.

(** ** The errors of the profile store

    The three kinds of failure that the commands report through
    [exit_with_error], with the message of each. *)

Section messages.
Variable repr : string → string.

(** A token of [set] that does not unpack. *)
Definition parse_error (variable : string) : exn :=
  ExitWithError
    ("Failed to parse argument " +:+ repr variable +:+ ". Use the format 'VAR=VAL'.").

(** A variable that [unset] does not find in the profile. *)
Definition variable_not_found (var profile_name : string) : exn :=
  ExitWithError
    ("Variable " +:+ repr var +:+ " not found in profile " +:+ repr profile_name +:+ ".").

(** A profile that [rm], [rename] or [inspect] does not find. *)
Definition profile_not_found (name : string) : exn :=
  ExitWithError ("Profle " +:+ repr name +:+ " not found.").

(** The new name of [rename] is taken. *)
Definition profile_already_exists (name : string) : exn :=
  ExitWithError ("Profile " +:+ repr name +:+ " already exists.").

(** [exit_with_success] of [rm], with its verb. *)
Definition removed (verb name : string) : exn :=
  ExitWithSuccess (verb +:+ " profile " +:+ repr name +:+ ".").

(** [exit_with_success] of [rename]. *)
Definition renamed (name new_name : string) : exn :=
  ExitWithSuccess
    ("Renamed profile " +:+ repr name +:+ " to " +:+ repr new_name +:+ ".").
End messages.

(** [repr] on a string of printable ASCII characters without quote or
    backslash: the text between single quotes. *)
Definition repr_plain (s : string) : string := "'" +:+ s +:+ "'".

(** ** Outcomes

    A command has succeeded when it returns or leaves through
    [exit_with_success]. *)
Definition succeeded {A} (r : result A) : bool :=
  match r with
  | Done _ => true
  | Raised (ExitWithSuccess _) => true
  | Raised _ => false
  end.

(** * Properties *)

(** ** Running the model *)

Example split_on_ex1 : split_on "=" "A=1" = ["A"; "1"].
Proof. reflexivity. Qed.
Example split_on_ex2 : split_on "=" "BAD_TOKEN" = ["BAD_TOKEN"].
Proof. reflexivity. Qed.
Example split_on_ex3 : split_on "=" "A=1=2" = ["A"; "1"; "2"].
Proof. reflexivity. Qed.
Example split_on_ex4 : split_on "=" "=" = [""; ""].
Proof. reflexivity. Qed.

Example run_split : parse_variable "A=1" = Some ("A", "1").
Proof. reflexivity. Qed.

Example run_scenario :
  let w0 := World [("default", 0)] [[]] [("default", [])] in
  let w1 := (create "work" None w0).2 in
  let w2 := (set repr_plain "work" ["A=1"; "B=2"] w1).2 in
  let w3 := (rename repr_plain "work" "job" w2).2 in
  snapshot w3 = [("default", []); ("job", [("A", "1"); ("B", "2")])]
  ∧ file w3 = snapshot w3
  ∧ (ls "job" w3).1 = Done ["default"; "* job"].
Proof. vm_compute. done. Qed.

Example run_inspect :
  (inspect repr_plain "default" [] [("X", "1"); ("Y", "2")] [("X", "1"); ("Y", "9")]
     (Some "p") true true
     (World [("p", 0)] [[("Y", "9"); ("X", "5")]] [])).1
  = Done ["PREFECT_PROFILE='p'"; "Y='9' (from env)"; "X='5' (from profile)";
          "X='1' (from defaults)"; "Y='2' (from defaults)"].
Proof. vm_compute. reflexivity. Qed.


(** ** Dictionaries *)

Module PyDictFacts.
Import PyDict.
Section facts.
Context {V : Type}.
Implicit Types (d : t V) (k : string) (v : V).

Lemma contains_keys k d : contains k d = true ↔ k ∈ keys d.
Proof.
  induction d as [|[k' v'] d IH]; simpl.
  - split; [discriminate | by intros ?%elem_of_nil].
  - rewrite elem_of_cons, <- IH.
    destruct (String.eqb_spec k k'); intuition congruence.
Qed.

Lemma contains_false_keys k d : contains k d = false ↔ k ∉ keys d.
Proof. rewrite <- contains_keys. by destruct (contains k d). Qed.

Lemma get_contains k d : is_Some (get k d) ↔ contains k d = true.
Proof.
  induction d as [|[k' v'] d IH]; simpl.
  - split; [by intros [? ?] | discriminate].
  - destruct (String.eqb k k'); [split; eauto | done].
Qed.

Lemma get_None_contains k d : get k d = None ↔ contains k d = false.
Proof.
  rewrite eq_None_not_Some, get_contains. by destruct (contains k d).
Qed.

Lemma get_elem_of k v d : get k d = Some v → (k, v) ∈ d.
Proof.
  induction d as [|[k' v'] d IH]; simpl; [done|].
  destruct (String.eqb_spec k k') as [->|]; [intros [= ->]; left | right; auto].
Qed.

Lemma elem_of_get k v d : wf d → (k, v) ∈ d → get k d = Some v.
Proof.
  unfold wf, keys. induction d as [|[k' v'] d IH]; simpl.
  - by intros _ ?%elem_of_nil.
  - rewrite NoDup_cons, elem_of_cons. intros [Hk' Hd] [[= -> ->]|Hin].
    + by rewrite String.eqb_refl.
    + destruct (String.eqb_spec k k') as [->|]; [|auto].
      destruct Hk'. apply list_elem_of_fmap. by exists (k', v).
Qed.

Lemma contains_remove_eq k d : contains k (remove k d) = false.
Proof.
  induction d as [|[k' v'] d IH]; simpl; [done|].
  destruct (String.eqb k k') eqn:E; simpl; [done | by rewrite E].
Qed.

Lemma get_remove_ne k k' d : k ≠ k' → get k' (remove k d) = get k' d.
Proof.
  intros Hne. induction d as [|[k0 v0] d IH]; simpl; [done|].
  destruct (String.eqb_spec k k0) as [<-|]; simpl.
  - rewrite IH. by destruct (String.eqb_spec k' k).
  - by rewrite IH.
Qed.

Lemma contains_remove_ne k k' d :
  k ≠ k' → contains k' (remove k d) = contains k' d.
Proof.
  intros Hne. induction d as [|[k0 v0] d IH]; simpl; [done|].
  destruct (String.eqb_spec k k0) as [<-|]; simpl.
  - rewrite IH. by destruct (String.eqb_spec k' k).
  - by rewrite IH.
Qed.

Lemma keys_remove k d : keys (remove k d) = filter (λ k', k' ≠ k) (keys d).
Proof.
  unfold keys. induction d as [|[k0 v0] d IH]; [done|].
  cbn [remove]. rewrite fmap_cons. cbn [fst].
  destruct (String.eqb_spec k k0) as [<-|].
  - rewrite filter_cons_False by (intros H; by apply H). done.
  - rewrite filter_cons_True by congruence. rewrite fmap_cons. cbn [fst].
    by rewrite IH.
Qed.

Lemma get_setitem_eq k v d : get k (setitem k v d) = Some v.
Proof.
  induction d as [|[k0 v0] d IH]; simpl.
  - by rewrite String.eqb_refl.
  - destruct (String.eqb k k0) eqn:E; simpl; by rewrite E.
Qed.

Lemma get_setitem_ne k k' v d : k ≠ k' → get k' (setitem k v d) = get k' d.
Proof.
  intros Hne. induction d as [|[k0 v0] d IH]; simpl.
  - by destruct (String.eqb_spec k' k).
  - destruct (String.eqb_spec k k0) as [<-|]; simpl.
    + by destruct (String.eqb_spec k' k).
    + by rewrite IH.
Qed.

Lemma contains_setitem k k' v d :
  contains k' (setitem k v d) = String.eqb k' k || contains k' d.
Proof.
  induction d as [|[k0 v0] d IH]; simpl.
  - by destruct (String.eqb k' k).
  - destruct (String.eqb_spec k k0) as [<-|]; simpl.
    + by destruct (String.eqb k' k).
    + rewrite IH. destruct (String.eqb k' k0), (String.eqb k' k); done.
Qed.

(** A key that the dictionary does not have goes last. *)
Lemma setitem_fresh k v d : contains k d = false → setitem k v d = d ++ [(k, v)].
Proof.
  induction d as [|[k0 v0] d IH]; simpl; [done|].
  destruct (String.eqb k k0); [done|]. intros H. by rewrite IH.
Qed.

(** Building a dictionary from items without a repeated key keeps them as
    they are. *)
Lemma of_items_app (acc items : list (string * V)) :
  wf (acc ++ items) →
  fold_left (λ d kv, setitem kv.1 kv.2 d) items acc = acc ++ items.
Proof.
  revert acc. induction items as [|[k v] items IH]; intros acc Hwf; simpl.
  - by rewrite app_nil_r.
  - rewrite setitem_fresh.
    + rewrite IH; rewrite <- app_assoc; done.
    + apply contains_false_keys. unfold wf, keys in Hwf.
      rewrite fmap_app in Hwf. apply NoDup_app in Hwf as (_ & Hdisj & _).
      intros Hin. apply (Hdisj _ Hin). simpl. left.
Qed.

Lemma of_items_wf (items : list (string * V)) : wf items → of_items items = items.
Proof. intros Hwf. unfold of_items. by rewrite of_items_app. Qed.

Lemma wf_filter (P : string * V → Prop) `{!∀ x, Decision (P x)} d :
  wf d → wf (filter P d).
Proof.
  unfold wf, keys. induction d as [|[k v] d IH]; [intros _; constructor|].
  rewrite fmap_cons, NoDup_cons. cbn [fst]. intros [Hk Hd].
  destruct (decide (P (k, v))).
  - rewrite filter_cons_True by done.
    rewrite fmap_cons, NoDup_cons. cbn [fst]. split; [|auto].
    intros ((k' & v') & Heq & [_ Hin]%list_elem_of_filter)%list_elem_of_fmap.
    simpl in Heq. subst k'.
    apply Hk. apply list_elem_of_fmap. by exists (k, v').
  - rewrite filter_cons_False by done. auto.
Qed.
End facts.
End PyDictFacts.


(** ** Splitting a token *)

Lemma split_on_length (sep : ascii) (s : string) :
  length (split_on sep s) = S (count_char sep s).
Proof.
  induction s as [|c s IH]; [done|].
  cbn [split_on count_char]. destruct (Ascii.eqb c sep).
  - simpl. by rewrite IH.
  - destruct (split_on sep s); simpl in *; lia.
Qed.

(** A token unpacks into a variable and a value exactly when it holds one
    ["="]. *)
Lemma parse_variable_Some (variable : string) :
  is_Some (parse_variable variable) ↔ count_char "=" variable = 1.
Proof.
  unfold parse_variable. pose proof (split_on_length "=" variable) as Hlen.
  destruct (split_on "=" variable) as [|var [|value [|extra parts]]];
    simpl in Hlen; split; intros H; try lia; try (by destruct H); eauto.
Qed.

Lemma parse_variable_None (variable : string) :
  parse_variable variable = None ↔ count_char "=" variable ≠ 1.
Proof. by rewrite eq_None_not_Some, parse_variable_Some. Qed.

(** ** The heap *)

Lemma world_eta (w : world) : World (profiles w) (heap w) (file w) = w.
Proof. by destruct w. Qed.

(** A reference beyond the heap reads as the empty dictionary, so a
    dictionary with a key is inside the heap. *)
Lemma contains_deref_lt (w : world) (r : ref) (k : string) :
  PyDict.contains k (deref w r) = true → r < length (heap w).
Proof.
  unfold deref. rewrite list_lookup_total_alt.
  destruct (heap w !! r) eqn:E; [intros _; by eapply lookup_lt_Some | done].
Qed.

Lemma insert_deref (w : world) (r : ref) : <[r := deref w r]> (heap w) = heap w.
Proof.
  apply list_insert_id'. intros Hlt. unfold deref.
  rewrite list_lookup_total_alt.
  destruct (heap w !! r) eqn:E; [done|].
  apply lookup_ge_None in E. lia.
Qed.

(** ** [set] *)

Section set_facts.
Variable repr : string → string.

(** The parsing loop stops at the first token that does not unpack, and
    touches nothing. *)
Lemma parse_variables_stops (variables : list string) :
  (∃ t, t ∈ variables ∧ parse_variable t = None) →
  ∃ pre t post,
    variables = pre ++ t :: post
    ∧ Forall (λ x, is_Some (parse_variable x)) pre
    ∧ parse_variable t = None
    ∧ ∀ acc w, parse_variables repr variables acc w = (Raised (parse_error repr t), w).
Proof.
  induction variables as [|variable variables IH]; intros (t & Hin & Ht).
  - by apply elem_of_nil in Hin.
  - destruct (parse_variable variable) as [parsed|] eqn:E.
    + apply elem_of_cons in Hin as [->|Hin]; [congruence|].
      destruct IH as (pre & t' & post & -> & Hpre & Ht' & Hrun); [eauto|].
      exists (variable :: pre), t', post. split_and!; [done| |done|].
      * constructor; [by rewrite E | done].
      * intros acc w. simpl. rewrite E. apply Hrun.
    + exists [], variable, variables. split_and!; [done|constructor|done|].
      intros acc w. simpl. by rewrite E.
Qed.

(** C4: [set] is all-or-nothing on malformed input.  When some token does not
    hold exactly one ["="], the command leaves the whole state as it was (the
    document in memory, every dictionary and the file), and for a profile of
    the document it stops with the parse error of the first such token: no
    pair is stored, also not those of the well-formed tokens before it. *)
Theorem C4_set_all_or_nothing (profile_name : string) (variables : list string)
    (w : world) :
  (∃ t, t ∈ variables ∧ count_char "=" t ≠ 1) →
  (set repr profile_name variables w).2 = w
  ∧ (PyDict.contains profile_name (profiles w) = true →
     ∃ pre t post,
       variables = pre ++ t :: post
       ∧ Forall (λ x, count_char "=" x = 1) pre
       ∧ count_char "=" t ≠ 1
       ∧ (set repr profile_name variables w).1 = Raised (parse_error repr t)).
Proof.
  intros (t & Hin & Ht%parse_variable_None).
  destruct (parse_variables_stops variables) as (pre & t' & post & Hv & Hpre & Ht' & Hrun);
    [eauto|].
  unfold set, bind, profile_ref.
  destruct (PyDict.get profile_name (profiles w)) as [env|] eqn:Henv.
  - rewrite Hrun. split; [done|]. intros _.
    exists pre, t', post. split_and!; [done| |by apply parse_variable_None|done].
    eapply Forall_impl; [exact Hpre|]. intros x. apply parse_variable_Some.
  - split; [done|]. intros Hc%PyDictFacts.get_contains.
    rewrite Henv in Hc. by destruct Hc.
Qed.
End set_facts.

(** The scenario of the specification: [A=1] is not applied. *)
Lemma C4_set_all_or_nothing_witness :
  let w := World [("default", 0)] [[]] [("default", [])] in
  let variables := ["A=1"; "BAD_TOKEN"] in
  (set repr_plain "default" variables w).2 = w
  ∧ (PyDict.contains "default" (profiles w) = true →
     ∃ pre t post,
       variables = pre ++ t :: post
       ∧ Forall (λ x, count_char "=" x = 1) pre
       ∧ count_char "=" t ≠ 1
       ∧ (set repr_plain "default" variables w).1
         = Raised (parse_error repr_plain t)).
Proof.
  apply C4_set_all_or_nothing.
  exists "BAD_TOKEN". split; [repeat constructor | vm_compute; lia].
Defined.

Example run_set_bad_token :
  let w := World [("default", 0)] [[]] [("default", [])] in
  set repr_plain "default" ["A=1"; "BAD_TOKEN"] w
  = (Raised (ExitWithError
               "Failed to parse argument 'BAD_TOKEN'. Use the format 'VAR=VAL'."), w).
Proof. vm_compute. reflexivity. Qed.

(** ** [unset] *)

Section unset_facts.
Variable repr : string → string.

(** One round of the loop on a variable that the profile has. *)
Lemma unset_variables_present (profile_name : string) (env : ref)
    (var : string) (variables : list string) (w : world) :
  PyDict.contains var (deref w env) = true →
  unset_variables repr profile_name env (var :: variables) w
  = unset_variables repr profile_name env variables
      (World (profiles w)
         (<[env := PyDict.remove var (deref w env)]> (heap w)) (file w)).
Proof. intros Hc. cbn [unset_variables]. unfold bind, read, mutate. by rewrite Hc. Qed.

Lemma unset_variables_missing (profile_name : string) (env : ref)
    (var : string) (variables : list string) (w : world) :
  PyDict.contains var (deref w env) = false →
  unset_variables repr profile_name env (var :: variables) w
  = (Raised (variable_not_found repr var profile_name), w).
Proof. intros Hc. cbn [unset_variables]. unfold bind, read. by rewrite Hc. Qed.

Lemma deref_after_remove (w : world) (env : ref) (var : string) :
  PyDict.contains var (deref w env) = true →
  deref (World (profiles w)
           (<[env := PyDict.remove var (deref w env)]> (heap w)) (file w)) env
  = PyDict.remove var (deref w env).
Proof.
  intros Hlt%contains_deref_lt. unfold deref at 1. simpl.
  by apply list_lookup_total_insert_eq.
Qed.

(** The loop stops at the first variable that the dictionary does not hold
    when its turn comes: one that the profile never had, or one that an
    earlier round has popped.  The variables before it are gone from the
    dictionary by then; the document and the file are as they were. *)
Lemma unset_variables_stops (profile_name : string) (env : ref)
    (variables : list string) (w : world) :
  (∃ k, k ∈ variables ∧ PyDict.contains k (deref w env) = false) →
  ∃ pre k post,
    variables = pre ++ k :: post
    ∧ NoDup pre
    ∧ (∀ x, x ∈ pre → PyDict.contains x (deref w env) = true)
    ∧ (PyDict.contains k (deref w env) = false ∨ k ∈ pre)
    ∧ unset_variables repr profile_name env variables w
      = (Raised (variable_not_found repr k profile_name),
         World (profiles w)
           (<[env := foldl (λ d x, PyDict.remove x d) (deref w env) pre]> (heap w))
           (file w)).
Proof.
  revert w. induction variables as [|var variables IH]; intros w (k & Hin & Hk).
  - by apply elem_of_nil in Hin.
  - destruct (PyDict.contains var (deref w env)) eqn:Hvar.
    + set (w' := World (profiles w)
                   (<[env := PyDict.remove var (deref w env)]> (heap w)) (file w)).
      assert (Hd : deref w' env = PyDict.remove var (deref w env))
        by by apply deref_after_remove.
      apply elem_of_cons in Hin as [->|Hin]; [congruence|].
      assert (var ≠ k) as Hne by congruence.
      destruct (IH w') as (pre & k' & post & -> & Hnd & Hpre & Hk' & Hrun).
      { exists k. split; [done|].
        by rewrite Hd, PyDictFacts.contains_remove_ne. }
      rewrite Hd in Hpre, Hk', Hrun.
      exists (var :: pre), k', post. split_and!.
      * done.
      * apply NoDup_cons. split; [|done]. intros Hvin%Hpre.
        by rewrite PyDictFacts.contains_remove_eq in Hvin.
      * intros x [->|Hx%Hpre]%elem_of_cons; [done|].
        destruct (decide (var = x)) as [->|];
          [by rewrite PyDictFacts.contains_remove_eq in Hx|].
        by rewrite PyDictFacts.contains_remove_ne in Hx.
      * destruct (decide (var = k')) as [->|]; [right; left|].
        rewrite PyDictFacts.contains_remove_ne in Hk' by done.
        destruct Hk'; [by left | right; by right].
      * rewrite unset_variables_present by done. fold w'. rewrite Hrun.
        subst w'. simpl. by rewrite list_insert_insert_eq.
    + exists [], var, variables. split_and!; [done|constructor| |by left|].
      * by intros x ?%elem_of_nil.
      * rewrite unset_variables_missing by done. simpl.
        by rewrite insert_deref, world_eta.
Qed.

(** C10: the same variable twice.  The first round pops it, the test of the
    second round then fails: [unset] stops with the error that names the
    variable, although the profile had it when the command started. *)
Theorem C10_unset_same_key_twice (profile_name k : string) (env : ref) (w : world) :
  PyDict.get profile_name (profiles w) = Some env →
  PyDict.contains k (deref w env) = true →
  (unset repr profile_name [k; k] w).1
  = Raised (variable_not_found repr k profile_name).
Proof.
  intros Henv Hk. unfold unset, bind, profile_ref. rewrite Henv.
  rewrite unset_variables_present by done.
  rewrite unset_variables_missing; [done|].
  by rewrite deref_after_remove, PyDictFacts.contains_remove_eq.
Qed.
End unset_facts.

Lemma C10_unset_same_key_twice_witness :
  let w := World [("default", 0)] [[("A", "1")]] [("default", [("A", "1")])] in
  (unset repr_plain "default" ["A"; "A"] w).1
  = Raised (variable_not_found repr_plain "A" "default").
Proof. intros w. by apply (C10_unset_same_key_twice repr_plain "default" "A" 0 w). Defined.

(** C5, as the code has it: with a variable that the profile does not have,
    [unset] stops with the error that names the first variable, in the order
    of the sequence, that is absent from the profile or repeats an earlier
    one (in a sequence without repetition: the first missing one).  The file
    is not written and the document binds the same profiles, but the
    dictionary of the profile has lost the variables before the named one. *)
Theorem C5_unset_stops_at_first_missing (repr : string → string)
    (profile_name : string) (env : ref) (variables : list string) (w : world) :
  PyDict.get profile_name (profiles w) = Some env →
  (∃ k, k ∈ variables ∧ PyDict.contains k (deref w env) = false) →
  ∃ pre k post,
    variables = pre ++ k :: post
    ∧ NoDup pre
    ∧ (∀ x, x ∈ pre → PyDict.contains x (deref w env) = true)
    ∧ (PyDict.contains k (deref w env) = false ∨ k ∈ pre)
    ∧ (NoDup variables → PyDict.contains k (deref w env) = false)
    ∧ unset repr profile_name variables w
      = (Raised (variable_not_found repr k profile_name),
         World (profiles w)
           (<[env := foldl (λ d x, PyDict.remove x d) (deref w env) pre]> (heap w))
           (file w)).
Proof.
  intros Henv Hmissing.
  destruct (unset_variables_stops repr profile_name env variables w Hmissing)
    as (pre & k & post & Hv & Hnd & Hpre & Hk & Hrun).
  exists pre, k, post. split_and!; try done.
  - intros Hndv. destruct Hk as [Hk|Hk]; [done|].
    subst variables. apply NoDup_app in Hndv as (_ & Hdisj & _).
    destruct (Hdisj k Hk). left.
  - unfold unset, bind, profile_ref. by rewrite Henv, Hrun.
Qed.

Lemma C5_unset_stops_at_first_missing_witness :
  let w := World [("default", 0)] [[("A", "1")]] [("default", [("A", "1")])] in
  ∃ pre k post,
    ["A"; "B"] = pre ++ k :: post
    ∧ NoDup pre
    ∧ (∀ x, x ∈ pre → PyDict.contains x (deref w 0) = true)
    ∧ (PyDict.contains k (deref w 0) = false ∨ k ∈ pre)
    ∧ (NoDup ["A"; "B"] → PyDict.contains k (deref w 0) = false)
    ∧ unset repr_plain "default" ["A"; "B"] w
      = (Raised (variable_not_found repr_plain k "default"),
         World (profiles w)
           (<[0 := foldl (λ d x, PyDict.remove x d) (deref w 0) pre]> (heap w))
           (file w)).
Proof.
  intros w. apply (C5_unset_stops_at_first_missing repr_plain "default" 0).
  - reflexivity.
  - exists "B". split; [repeat constructor | reflexivity].
Defined.

(** C5 as stated fails in both of its parts.  With ["A"] in the profile and
    ["B"] not, [unset A B] reports ["B"] after ["A"] has been popped: the
    document in memory is not the one the command started from.  And
    [unset A A B] names ["A"], which the profile had, not the missing ["B"]. *)
Lemma C5_unset_partial_counterexample :
  let w := World [("default", 0)] [[("A", "1")]] [("default", [("A", "1")])] in
  PyDict.contains "B" (deref w 0) = false
  ∧ (unset repr_plain "default" ["A"; "B"] w).1
    = Raised (variable_not_found repr_plain "B" "default")
  ∧ snapshot w = [("default", [("A", "1")])]
  ∧ snapshot (unset repr_plain "default" ["A"; "B"] w).2 = [("default", [])]
  ∧ (unset repr_plain "default" ["A"; "B"] w).2 ≠ w
  ∧ (unset repr_plain "default" ["A"; "A"; "B"] w).1
    = Raised (variable_not_found repr_plain "A" "default").
Proof. vm_compute. split_and!; done. Qed.

(** ** [rm] and [rename] *)

(** The file written by [write_profiles] shows every profile with the
    contents of its dictionary. *)
Lemma get_snapshot (w : world) (name : string) :
  PyDict.get name (snapshot w) = settings_of w name.
Proof.
  unfold settings_of, snapshot.
  induction (profiles w) as [|[n r] d IH]; [done|].
  rewrite fmap_cons. simpl. by destruct (String.eqb name n).
Qed.

Lemma keys_snapshot (w : world) : PyDict.keys (snapshot w) = PyDict.keys (profiles w).
Proof.
  unfold snapshot, PyDict.keys. rewrite <- list_fmap_compose.
  by apply list_fmap_ext.
Qed.

(** A new dictionary does not change what a reference reads. *)
Lemma lookup_total_alloc (h : list (PyDict.t string)) (r : ref) :
  (h ++ [[]]) !!! r = h !!! r.
Proof.
  rewrite !list_lookup_total_alt.
  destruct (decide (r < length h)) as [Hlt|Hge].
  - by rewrite lookup_app_l.
  - rewrite lookup_app_r by lia. rewrite (lookup_ge_None_2 h r) by lia.
    by destruct (r - length h) as [|[|?]].
Qed.

Section rm_facts.
Variable repr : string → string.

(** [rm default]: the entry is popped and bound again, to a new empty
    dictionary, after the profiles that stay. *)
Lemma rm_default (w : world) :
  PyDict.contains "default" (profiles w) = true →
  rm repr "default" w
  = (Raised (removed repr "Reset" "default"),
     let d := PyDict.setitem "default" (length (heap w))
                (PyDict.remove "default" (profiles w)) in
     let h := heap w ++ [[]] in
     World d h (snapshot (World d h (file w)))).
Proof.
  intros Hc. unfold rm, bind, has_profile, pop_profile, PyDict.pop. rewrite Hc.
  apply PyDictFacts.get_contains in Hc as [r Hr]. by rewrite Hr.
Qed.

Lemma rm_other (name : string) (w : world) :
  name ≠ "default" →
  PyDict.contains name (profiles w) = true →
  rm repr name w
  = (Raised (removed repr "Removed" name),
     let d := PyDict.remove name (profiles w) in
     World d (heap w) (snapshot (World d (heap w) (file w)))).
Proof.
  intros Hne Hc. unfold rm, bind, has_profile, pop_profile, PyDict.pop. rewrite Hc.
  apply PyDictFacts.get_contains in Hc as [r Hr]. rewrite Hr.
  by destruct (String.eqb_spec name "default").
Qed.

Lemma rm_absent (name : string) (w : world) :
  PyDict.contains name (profiles w) = false →
  rm repr name w = (Raised (profile_not_found repr name), w).
Proof. intros Hc. unfold rm, bind, has_profile. by rewrite Hc. Qed.

(** C6: [rm] keeps the profile ["default"].  On a document with ["default"]
    the command succeeds with the verb "Reset" and the document, in memory
    and in the file written, still has ["default"], with no setting and
    with the other profiles as they were.  Any other profile of the document
    is deleted with the verb "Removed", the other profiles staying as they
    were, and a name that is not in the document is an error that changes
    nothing. *)
Theorem C6_rm_keeps_default (w : world) :
  (PyDict.contains "default" (profiles w) = true →
   ∃ w', rm repr "default" w = (Raised (removed repr "Reset" "default"), w')
     ∧ settings_of w' "default" = Some []
     ∧ PyDict.get "default" (file w') = Some []
     ∧ ∀ m, m ≠ "default" →
         settings_of w' m = settings_of w m
         ∧ PyDict.get m (file w') = settings_of w m)
  ∧ (∀ n, n ≠ "default" → PyDict.contains n (profiles w) = true →
     ∃ w', rm repr n w = (Raised (removed repr "Removed" n), w')
       ∧ PyDict.contains n (profiles w') = false
       ∧ PyDict.contains n (file w') = false
       ∧ ∀ m, m ≠ n →
           settings_of w' m = settings_of w m
           ∧ PyDict.get m (file w') = settings_of w m)
  ∧ (∀ n, PyDict.contains n (profiles w) = false →
     rm repr n w = (Raised (profile_not_found repr n), w)).
Proof.
  split_and!.
  - intros Hc. eexists. split; [by apply rm_default|]. cbn zeta.
    assert (Hd : settings_of
              (World (PyDict.setitem "default" (length (heap w))
                        (PyDict.remove "default" (profiles w)))
                 (heap w ++ [[]]) (file w)) "default" = Some []).
    { unfold settings_of, deref. simpl. rewrite PyDictFacts.get_setitem_eq. simpl.
      by rewrite lookup_total_alloc, list_lookup_total_alt, lookup_ge_None_2. }
    assert (Ho : ∀ m, m ≠ "default" →
              settings_of
                (World (PyDict.setitem "default" (length (heap w))
                          (PyDict.remove "default" (profiles w)))
                   (heap w ++ [[]]) (file w)) m = settings_of w m).
    { intros m Hm. unfold settings_of, deref. simpl.
      rewrite PyDictFacts.get_setitem_ne, PyDictFacts.get_remove_ne by done.
      destruct (PyDict.get m (profiles w)); [simpl|done].
      by rewrite lookup_total_alloc. }
    split_and!.
    + exact Hd.
    + simpl. by rewrite get_snapshot.
    + intros m Hm. split; [by apply Ho|]. simpl. rewrite get_snapshot. by apply Ho.
  - intros n Hn Hc. eexists. split; [by apply rm_other|]. cbn zeta.
    assert (Ho : ∀ m, m ≠ n →
              settings_of (World (PyDict.remove n (profiles w)) (heap w) (file w)) m
              = settings_of w m).
    { intros m Hm. unfold settings_of, deref. simpl.
      by rewrite PyDictFacts.get_remove_ne. }
    split_and!.
    + simpl. apply PyDictFacts.contains_remove_eq.
    + simpl. apply PyDictFacts.contains_false_keys. rewrite keys_snapshot. simpl.
      apply PyDictFacts.contains_false_keys, PyDictFacts.contains_remove_eq.
    + intros m Hm. split; [by apply Ho|]. simpl. rewrite get_snapshot. by apply Ho.
  - intros n Hn. by apply rm_absent.
Qed.
End rm_facts.

Lemma C6_rm_keeps_default_witness :
  let w := World [("default", 0); ("job", 1)] [[("A", "1")]; [("B", "2")]]
             [("default", [("A", "1")]); ("job", [("B", "2")])] in
  (∃ w', rm repr_plain "default" w
         = (Raised (removed repr_plain "Reset" "default"), w')
     ∧ settings_of w' "default" = Some []
     ∧ PyDict.get "default" (file w') = Some []
     ∧ ∀ m, m ≠ "default" →
         settings_of w' m = settings_of w m
         ∧ PyDict.get m (file w') = settings_of w m)
  ∧ (∃ w', rm repr_plain "job" w = (Raised (removed repr_plain "Removed" "job"), w')
       ∧ PyDict.contains "job" (profiles w') = false
       ∧ PyDict.contains "job" (file w') = false
       ∧ ∀ m, m ≠ "job" →
           settings_of w' m = settings_of w m
           ∧ PyDict.get m (file w') = settings_of w m)
  ∧ rm repr_plain "work" w = (Raised (profile_not_found repr_plain "work"), w).
Proof.
  intros w. destruct (C6_rm_keeps_default repr_plain w) as (Hreset & Hremoved & Habsent).
  split_and!.
  - apply Hreset. reflexivity.
  - apply (Hremoved "job"); [discriminate | reflexivity].
  - apply (Habsent "work"). reflexivity.
Defined.

(** C8, as the code has it: on the document [{"default": {"A": "1"}, "job": {}}]
    [rm default] stops with the verb "Reset" and leaves, in memory and in the
    file, a document with the profiles ["job"] and ["default"], both without
    settings: the contents of [{"default": {}, "job": {}}], but ["default"] is
    now the last profile in storage order.  On every document with
    ["default"] the profile moves behind the profiles that stay. *)
Theorem C8_rm_default_goes_last (repr : string → string) :
  (let w := World [("default", 0); ("job", 1)] [[("A", "1")]; []]
              [("default", [("A", "1")]); ("job", [])] in
   ∃ w', rm repr "default" w = (Raised (removed repr "Reset" "default"), w')
     ∧ snapshot w' = [("job", []); ("default", [])]
     ∧ file w' = [("job", []); ("default", [])]
     ∧ ∀ n, PyDict.get n (snapshot w') = PyDict.get n [("default", []); ("job", [])])
  ∧ ∀ w, PyDict.contains "default" (profiles w) = true →
      PyDict.keys (profiles (rm repr "default" w).2)
      = filter (λ n, n ≠ "default") (PyDict.keys (profiles w)) ++ ["default"].
Proof.
  split.
  - eexists. split; [by apply rm_default|]. split_and!; try reflexivity.
    intros n. cbn.
    destruct (String.eqb n "job") eqn:Ej, (String.eqb n "default") eqn:Ed; try done.
  - intros w Hc. rewrite rm_default by done. cbn [snd profiles].
    rewrite PyDictFacts.setitem_fresh by apply PyDictFacts.contains_remove_eq.
    rewrite <- PyDictFacts.keys_remove. unfold PyDict.keys. by rewrite fmap_app.
Qed.

Lemma C8_rm_default_goes_last_witness :
  let w := World [("default", 0); ("job", 1)] [[("A", "1")]; []]
             [("default", [("A", "1")]); ("job", [])] in
  PyDict.keys (profiles (rm repr_plain "default" w).2)
  = filter (λ n, n ≠ "default") (PyDict.keys (profiles w)) ++ ["default"].
Proof.
  intros w. apply (proj2 (C8_rm_default_goes_last repr_plain) w). reflexivity.
Defined.

(** C8 as stated fails: after [rm default] the storage order is ["job"],
    ["default"], so the document is not the ordered mapping
    [{"default": {}, "job": {}}] and ["default"] is not its first profile. *)
Lemma C8_rm_default_order_counterexample :
  let w := World [("default", 0); ("job", 1)] [[("A", "1")]; []]
             [("default", [("A", "1")]); ("job", [])] in
  let w' := (rm repr_plain "default" w).2 in
  snapshot w' ≠ [("default", []); ("job", [])]
  ∧ PyDict.keys (profiles w') = ["job"; "default"]
  ∧ head (PyDict.keys (file w')) ≠ Some "default".
Proof. vm_compute. split_and!; done. Qed.

Section rename_facts.
Variable repr : string → string.

(** C9: [rename] fails on a name that is not in the document, fails on a new
    name that is taken, and otherwise binds the new name to the dictionary of
    the old one, whose contents do not change, and drops the old name; the
    other profiles stay as they are and the file is written.  Nothing treats
    ["default"] apart: renamed, it is gone from the document. *)
Theorem C9_rename_moves_settings (name new_name : string) (w : world) :
  (PyDict.contains name (profiles w) = false →
   rename repr name new_name w = (Raised (profile_not_found repr name), w))
  ∧ (PyDict.contains name (profiles w) = true →
     PyDict.contains new_name (profiles w) = true →
     rename repr name new_name w
     = (Raised (profile_already_exists repr new_name), w))
  ∧ (PyDict.contains name (profiles w) = true →
     PyDict.contains new_name (profiles w) = false →
     ∃ w', rename repr name new_name w = (Raised (renamed repr name new_name), w')
       ∧ PyDict.get new_name (profiles w') = PyDict.get name (profiles w)
       ∧ settings_of w' new_name = settings_of w name
       ∧ PyDict.contains name (profiles w') = false
       ∧ heap w' = heap w
       ∧ file w' = snapshot w'
       ∧ PyDict.contains name (file w') = false
       ∧ ∀ m, m ≠ name → m ≠ new_name → settings_of w' m = settings_of w m).
Proof.
  unfold rename, bind, has_profile, pop_profile, PyDict.pop. split_and!.
  - by intros ->.
  - by intros -> ->.
  - intros Hname Hnew. rewrite Hname, Hnew.
    assert (name ≠ new_name) as Hne by congruence.
    apply PyDictFacts.get_contains in Hname as Hget. destruct Hget as [r Hr].
    rewrite Hr. eexists. split; [reflexivity|].
    assert (Hgone : PyDict.contains name
                      (PyDict.setitem new_name r (PyDict.remove name (profiles w)))
                    = false).
    { rewrite PyDictFacts.contains_setitem, PyDictFacts.contains_remove_eq.
      by destruct (String.eqb_spec name new_name). }
    unfold settings_of, deref. simpl. split_and!.
    + by rewrite PyDictFacts.get_setitem_eq.
    + by rewrite PyDictFacts.get_setitem_eq, Hr.
    + exact Hgone.
    + done.
    + done.
    + apply PyDictFacts.contains_false_keys. rewrite keys_snapshot. simpl.
      by apply PyDictFacts.contains_false_keys.
    + intros m Hm Hm'.
      by rewrite PyDictFacts.get_setitem_ne, PyDictFacts.get_remove_ne.
Qed.
End rename_facts.

Lemma C9_rename_moves_settings_witness :
  let w := World [("default", 0); ("job", 1)] [[("A", "1")]; []]
             [("default", [("A", "1")]); ("job", [])] in
  rename repr_plain "work" "main" w = (Raised (profile_not_found repr_plain "work"), w)
  ∧ rename repr_plain "default" "job" w
    = (Raised (profile_already_exists repr_plain "job"), w)
  ∧ ∃ w', rename repr_plain "default" "main" w
          = (Raised (renamed repr_plain "default" "main"), w')
      ∧ PyDict.get "main" (profiles w') = PyDict.get "default" (profiles w)
      ∧ settings_of w' "main" = settings_of w "default"
      ∧ PyDict.contains "default" (profiles w') = false
      ∧ heap w' = heap w
      ∧ file w' = snapshot w'
      ∧ PyDict.contains "default" (file w') = false
      ∧ ∀ m, m ≠ "default" → m ≠ "main" → settings_of w' m = settings_of w m.
Proof.
  intros w. split_and!.
  - apply (C9_rename_moves_settings repr_plain "work" "main" w). reflexivity.
  - apply (C9_rename_moves_settings repr_plain "default" "job" w); reflexivity.
  - apply (C9_rename_moves_settings repr_plain "default" "main" w); reflexivity.
Defined.

(** ** [get] *)

Lemma get_filter_names {V : Type} (names : list string) (d : PyDict.t V)
    (k : string) :
  PyDict.get k (filter (λ item, item.1 ∈ names) d)
  = if decide (k ∈ names) then PyDict.get k d else None.
Proof.
  induction d as [|[k' v'] d IH]; [by destruct (decide (k ∈ names))|].
  destruct (decide (k' ∈ names)) as [HP|HP].
  - rewrite filter_cons_True by exact HP. simpl. rewrite IH.
    destruct (String.eqb_spec k k') as [->|]; [|done].
    by destruct (decide (k' ∈ names)).
  - rewrite filter_cons_False by exact HP. simpl. rewrite IH.
    destruct (String.eqb_spec k k') as [->|]; [|done].
    by destruct (decide (k' ∈ names)).
Qed.

Lemma keys_filter_names {V : Type} (names : list string) (d : PyDict.t V) :
  PyDict.keys (filter (λ item, item.1 ∈ names) d)
  = filter (λ n, n ∈ names) (PyDict.keys d).
Proof.
  unfold PyDict.keys. induction d as [|[k' v'] d IH]; [done|].
  rewrite fmap_cons. cbn [fst]. destruct (decide (k' ∈ names)) as [HP|HP].
  - rewrite (filter_cons_True (λ n, n ∈ names)) by exact HP.
    rewrite filter_cons_True by exact HP. rewrite fmap_cons. by rewrite IH.
  - rewrite (filter_cons_False (λ n, n ∈ names)) by exact HP.
    by rewrite filter_cons_False by exact HP.
Qed.

(** C2, as the code has it: [get] never fails.  For a sequence of names that
    is not empty it returns the profiles of the document whose name is among
    them, bound to their dictionaries and in storage order; a requested name
    that is not a profile is left out without an error. *)
Theorem C2_get_returns_the_known_profiles (profile_name : string)
    (names : list string) (w : world) :
  PyDict.wf (profiles w) →
  names ≠ [] →
  ∃ display_profiles,
    get profile_name names w = (Done display_profiles, w)
    ∧ PyDict.keys display_profiles = filter (λ n, n ∈ names) (PyDict.keys (profiles w))
    ∧ ∀ n, PyDict.get n display_profiles
           = if decide (n ∈ names) then PyDict.get n (profiles w) else None.
Proof.
  intros Hwf Hnames. exists (filter (λ item, item.1 ∈ names) (profiles w)).
  split_and!.
  - unfold get. destruct names; [done|].
    rewrite PyDictFacts.of_items_wf; [done|]. by apply PyDictFacts.wf_filter.
  - apply keys_filter_names.
  - intros n. apply get_filter_names.
Qed.

Lemma C2_get_returns_the_known_profiles_witness :
  let w := World [("default", 0); ("job", 1)] [[]; [("A", "1")]]
             [("default", []); ("job", [("A", "1")])] in
  ∃ display_profiles,
    get "default" ["job"; "work"] w = (Done display_profiles, w)
    ∧ PyDict.keys display_profiles
      = filter (λ n, n ∈ ["job"; "work"]) (PyDict.keys (profiles w))
    ∧ ∀ n, PyDict.get n display_profiles
           = if decide (n ∈ ["job"; "work"]) then PyDict.get n (profiles w) else None.
Proof.
  intros w. apply (C2_get_returns_the_known_profiles "default" ["job"; "work"] w).
  - unfold PyDict.wf. compute_done.
  - discriminate.
Defined.

(** C2 as stated fails: ["work"] is requested and is not a profile, and [get]
    returns the one profile that exists instead of failing. *)
Lemma C2_get_missing_name_counterexample :
  let w := World [("default", 0); ("job", 1)] [[]; [("A", "1")]]
             [("default", []); ("job", [("A", "1")])] in
  PyDict.contains "work" (profiles w) = false
  ∧ get "default" ["job"; "work"] w = (Done [("job", 1)], w).
Proof. vm_compute. done. Qed.

(** ** [create] *)

(** [create --from]: the new name is bound to the dictionary that the
    profile copied from is bound to; no dictionary is made.  The file shows
    the same settings under both names. *)
Lemma create_from_shares (name from_name : string) (w : world) :
  PyDict.contains name (profiles w) = false →
  from_name ≠ "" →
  PyDict.contains from_name (profiles w) = true →
  ∃ r w',
    create name (Some from_name) w = (Done (), w')
    ∧ PyDict.get from_name (profiles w') = Some r
    ∧ PyDict.get name (profiles w') = Some r
    ∧ heap w' = heap w
    ∧ PyDict.get name (file w') = PyDict.get from_name (file w').
Proof.
  intros Hname Hfrom Hc.
  assert (from_name ≠ name) as Hne by congruence.
  apply PyDictFacts.get_contains in Hc as Hget. destruct Hget as [r Hr].
  assert (String.eqb from_name "" = false) as Hnonempty
    by by destruct (String.eqb_spec from_name "").
  exists r. eexists. split.
  - unfold create, bind, has_profile, profile_ref, truthy.
    rewrite Hname, Hnonempty, Hc, Hr. reflexivity.
  - simpl. rewrite !get_snapshot. unfold settings_of. simpl.
    rewrite PyDictFacts.get_setitem_eq, PyDictFacts.get_setitem_ne, Hr by congruence.
    done.
Qed.

(** The stores of [set] go to one dictionary: the document binds the same
    names to the same references afterwards, and every other dictionary is
    as it was. *)
Lemma assign_variables_frame (env : ref) (parsed_variables : list (string * string))
    (w : world) :
  profiles (assign_variables env parsed_variables w).2 = profiles w
  ∧ ∀ r, r ≠ env → deref (assign_variables env parsed_variables w).2 r = deref w r.
Proof.
  revert w. induction parsed_variables as [|[var value] rest IH]; intros w; [done|].
  cbn [assign_variables]. unfold bind, mutate.
  destruct (IH (World (profiles w)
                  (<[env := PyDict.setitem var value (deref w env)]> (heap w))
                  (file w))) as [Hp Hd].
  split; [by rewrite Hp|].
  intros r Hr. rewrite Hd by done. unfold deref. simpl.
  by apply list_lookup_total_insert_ne.
Qed.

(** Two names bound to one dictionary show the same settings whatever is
    stored through either of them. *)
Lemma shared_settings (w : world) (name other : string) (r : ref) :
  PyDict.get name (profiles w) = Some r →
  PyDict.get other (profiles w) = Some r →
  settings_of w name = settings_of w other.
Proof. intros Hn Ho. unfold settings_of. by rewrite Hn, Ho. Qed.

(** The parsing loop of [set] reads only. *)
Lemma parse_variables_pure (repr : string → string) (variables : list string)
    (acc : list (string * string)) (w : world) :
  (parse_variables repr variables acc w).2 = w.
Proof.
  revert acc. induction variables as [|variable variables IH]; intros acc; [done|].
  simpl. destruct (parse_variable variable); [apply IH | done].
Qed.

(** [set] stores into the dictionary of the active profile only: the
    document binds the same references, and a profile bound to another
    dictionary keeps its settings. *)
Lemma set_frame (repr : string → string) (profile_name : string)
    (variables : list string) (w : world) (env : ref) :
  PyDict.get profile_name (profiles w) = Some env →
  profiles (set repr profile_name variables w).2 = profiles w
  ∧ ∀ other r, PyDict.get other (profiles w) = Some r → r ≠ env →
      settings_of (set repr profile_name variables w).2 other = settings_of w other.
Proof.
  intros Henv. unfold set, bind, profile_ref. rewrite Henv.
  pose proof (parse_variables_pure repr variables [] w) as Hpure.
  destruct (parse_variables repr variables [] w) as [[parsed|e] w0];
    simpl in Hpure; subst w0.
  2:{ split; [done|]. by intros. }
  destruct (assign_variables_frame env parsed w) as [Hp Hd].
  destruct (assign_variables env parsed w) as [[[]|e] w1]; simpl in *.
  - split; [done|]. intros other r Hother Hr.
    unfold settings_of, snapshot. simpl. rewrite Hp, Hother. simpl.
    f_equal. by apply Hd.
  - split; [done|]. intros other r Hother Hr.
    unfold settings_of. rewrite Hp, Hother. simpl. f_equal. by apply Hd.
Qed.

(** After [create --from], whatever [set] stores in the new profile of that
    document shows in the profile it was made from. *)
Lemma create_from_then_set (repr : string → string) (name from_name : string)
    (variables : list string) (w : world) :
  PyDict.contains name (profiles w) = false →
  from_name ≠ "" →
  PyDict.contains from_name (profiles w) = true →
  let w1 := (create name (Some from_name) w).2 in
  let w2 := (set repr name variables w1).2 in
  settings_of w2 from_name = settings_of w2 name.
Proof.
  intros Hname Hne Hfrom w1 w2.
  destruct (create_from_shares name from_name w Hname Hne Hfrom)
    as (r & w' & Hrun & Hf & Hn & _).
  assert (w1 = w') as -> by (unfold w1; by rewrite Hrun).
  destruct (set_frame repr name variables w' r Hn) as [Hp _].
  apply (shared_settings w2 from_name name r); unfold w2; by rewrite Hp.
Qed.


(** Without [--from] the new profile has a dictionary of its own. *)
Example run_create_empty :
  let w := World [("default", 0)] [[("A", "1")]] [("default", [("A", "1")])] in
  let w1 := (create "N" None w).2 in
  let w2 := (set repr_plain "N" ["B=2"] w1).2 in
  settings_of w2 "N" = Some [("B", "2")]
  ∧ settings_of w2 "default" = Some [("A", "1")]
  ∧ create "default" None w = (Raised (TyperExit 1), w)
  ∧ create "N" (Some "X") w = (Raised (ExitWithError "Profile {from_name!r} not found."), w).
Proof. vm_compute. split_and!; reflexivity. Qed.

(** ** [inspect] *)

(** The subscript [default_settings[key]] raises on the first key of the
    items that the defaults do not have. *)
Lemma overrides_of_unknown_key (default_settings : PyDict.t string)
    (items : list (string * string)) (acc : PyDict.t string) :
  (∃ k, k ∈ PyDict.keys items ∧ PyDict.get k default_settings = None) →
  ∃ k, k ∈ PyDict.keys items ∧ PyDict.get k default_settings = None
       ∧ overrides_of default_settings items acc = Raised (KeyError k).
Proof.
  revert acc. induction items as [|[key val] items IH]; intros acc (k & Hin & Hk).
  - by apply elem_of_nil in Hin.
  - simpl. destruct (PyDict.get key default_settings) as [default_val|] eqn:E.
    + unfold PyDict.keys in Hin. rewrite fmap_cons in Hin.
      apply elem_of_cons in Hin as [->|Hin]; [simpl in Hk; congruence|].
      destruct (IH (if String.eqb val default_val then acc
                    else PyDict.setitem key val acc)) as (k' & Hin' & Hk' & Hrun);
        [by exists k|].
      exists k'. split_and!; [|done|done].
      right. exact Hin'.
    + exists key. split_and!; [|done|done]. left.
Qed.

(** The comprehension raises nothing but the [KeyError] of a key without
    default. *)
Lemma overrides_of_raises (default_settings : PyDict.t string)
    (items : list (string * string)) (acc : PyDict.t string) (e : exn) :
  overrides_of default_settings items acc = Raised e →
  ∃ k, e = KeyError k ∧ PyDict.get k default_settings = None.
Proof.
  revert acc. induction items as [|[key val] items IH]; intros acc; [done|].
  simpl. destruct (PyDict.get key default_settings) eqn:E.
  - apply IH.
  - intros [= <-]. by exists key.
Qed.

(** Whatever the environment holds, a profile with a variable that has no
    default makes the resolver raise [KeyError]: it returns no entry. *)
Lemma override_entries_unknown_key
    (current_settings env_settings default_settings : PyDict.t string) :
  (∃ k, k ∈ PyDict.keys current_settings ∧ PyDict.get k default_settings = None) →
  ∃ k, PyDict.get k default_settings = None
       ∧ override_entries current_settings env_settings default_settings
         = Raised (KeyError k).
Proof.
  intros Hmissing. unfold override_entries.
  destruct (overrides_of default_settings env_settings []) as [env_overrides|e] eqn:E.
  - destruct (overrides_of_unknown_key default_settings current_settings [] Hmissing)
      as (k & _ & Hk & ->).
    by exists k.
  - apply overrides_of_raises in E as (k & -> & Hk). by exists k.
Qed.

(** C3 fails on the code.  [set] stores a variable that is not a setting,
    and [inspect] of that profile then raises [KeyError] at the subscript of
    the defaults: no line is produced. *)
Theorem C3_inspect_raises_on_unknown_key :
  let default_settings := [("X", "1")] in
  let w := World [("default", 0)] [[]] [("default", [])] in
  let w1 := (set repr_plain "default" ["FOO=1"] w).2 in
  settings_of w1 "default" = Some [("FOO", "1")]
  ∧ overrides_of default_settings [("FOO", "1")] [] = Raised (KeyError "FOO")
  ∧ override_entries [("FOO", "1")] [("X", "1")] default_settings
    = Raised (KeyError "FOO")
  ∧ inspect repr_plain "default" [("X", "1")] default_settings [("X", "1")]
      (Some "default") false false w1
    = (Raised (KeyError "FOO"), w1).
Proof. vm_compute. split_and!; reflexivity. Qed.

(** On items whose keys are all settings, the comprehension keeps the items
    whose value is not the default, as they come. *)
Lemma overrides_of_known (default_settings : PyDict.t string)
    (items : list (string * string)) (acc : PyDict.t string) :
  PyDict.wf (acc ++ items) →
  (∀ k, k ∈ PyDict.keys items → PyDict.contains k default_settings = true) →
  overrides_of default_settings items acc
  = Done (acc ++ filter (λ item, PyDict.get item.1 default_settings ≠ Some item.2) items).
Proof.
  revert acc. induction items as [|[key val] items IH]; intros acc Hwf Hkeys.
  - cbn [overrides_of]. by rewrite filter_nil, app_nil_r.
  - cbn [overrides_of].
    destruct (PyDict.get key default_settings) as [default_val|] eqn:E.
    2:{ assert (PyDict.contains key default_settings = true) as Hc
          by (apply Hkeys; left).
        apply PyDictFacts.get_contains in Hc as [? ?]. congruence. }
    assert (Hrest : ∀ k, k ∈ PyDict.keys items →
                      PyDict.contains k default_settings = true)
      by (intros k Hk; apply Hkeys; by right).
    destruct (String.eqb_spec val default_val) as [->|Hne].
    + rewrite filter_cons_False by (simpl; rewrite E; auto).
      apply IH; [|done]. unfold PyDict.wf, PyDict.keys in *.
      rewrite fmap_app in *. rewrite fmap_cons in Hwf.
      apply NoDup_app in Hwf as (Hacc & Hdisj & [_ Hitems]%NoDup_cons).
      apply NoDup_app. split_and!; [done| |done].
      intros k Hk Hin. apply (Hdisj k Hk). by right.
    + rewrite filter_cons_True by (simpl; rewrite E; congruence).
      rewrite PyDictFacts.setitem_fresh.
      * rewrite IH; [by rewrite <- app_assoc| by rewrite <- app_assoc |done].
      * apply PyDictFacts.contains_false_keys. unfold PyDict.wf, PyDict.keys in *.
        rewrite fmap_app, fmap_cons in Hwf.
        apply NoDup_app in Hwf as (_ & Hdisj & _).
        intros Hin. apply (Hdisj _ Hin). left.
Qed.

(** What the dictionary of overrides holds for a key. *)
Lemma get_overrides (default_settings d : PyDict.t string) (k v : string) :
  PyDict.wf d →
  PyDict.get k (filter (λ item, PyDict.get item.1 default_settings ≠ Some item.2) d)
  = Some v
  ↔ PyDict.get k d = Some v ∧ PyDict.get k default_settings ≠ Some v.
Proof.
  intros Hwf. split.
  - intros [Hdiff Hin]%PyDictFacts.get_elem_of%list_elem_of_filter.
    split; [by apply PyDictFacts.elem_of_get | exact Hdiff].
  - intros [Hin%PyDictFacts.get_elem_of Hdiff].
    apply PyDictFacts.elem_of_get; [by apply PyDictFacts.wf_filter|].
    apply list_elem_of_filter. by split.
Qed.

(** The source of an overriding value: "env" exactly when the environment
    has the key with that value. *)
Lemma source_of_overrides (default_settings env_settings : PyDict.t string)
    (key value : string) :
  PyDict.wf env_settings →
  PyDict.get key default_settings ≠ Some value →
  source_of
    (filter (λ item, PyDict.get item.1 default_settings ≠ Some item.2) env_settings)
    key value
  = if decide (PyDict.get key env_settings = Some value) then "env" else "profile".
Proof.
  intros Hwf Hdiff. unfold source_of.
  destruct (PyDict.get key (filter _ env_settings)) as [env_val|] eqn:E.
  - apply get_overrides in E as [Henv _]; [|done].
    destruct (String.eqb_spec value env_val) as [->|Hne].
    + by rewrite decide_True.
    + rewrite decide_False; [done|]. congruence.
  - rewrite decide_False; [done|]. intros Henv.
    assert (PyDict.get key
              (filter (λ item, PyDict.get item.1 default_settings ≠ Some item.2)
                 env_settings) = Some value) as Hin
      by by apply get_overrides.
    congruence.
Qed.



Example run_override_entries :
  override_entries [("Y", "9")] [("Y", "9")] [("Y", "2")] = Done [("Y", "9", "env")]
  ∧ override_entries [("Y", "9")] [] [("Y", "2")] = Done [("Y", "9", "profile")]
  ∧ override_entries [("Y", "9")] [("Y", "3")] [("Y", "2")]
    = Done [("Y", "9", "profile")]
  ∧ override_entries [("X", "1"); ("Y", "9")] [] [("X", "1"); ("Y", "2")]
    = Done [("Y", "9", "profile")]
  ∧ override_entries [("Y", "9"); ("X", "1"); ("W", "5")]
      [("W", "0"); ("X", "1"); ("Y", "9")] [("W", "0"); ("X", "1"); ("Y", "2")]
    = Done [("Y", "9", "env"); ("W", "5", "profile")].
Proof. vm_compute. split_and!; reflexivity. Qed.

(** * Further properties of the commands *)

(** ** Tokens of [set] *)

Lemma split_on_no_sep (sep : ascii) (s : string) :
  count_char sep s = 0 → split_on sep s = [s].
Proof.
  induction s as [|c s IH]; [done|].
  cbn [split_on count_char]. destruct (Ascii.eqb c sep); [done|].
  intros Hs. by rewrite IH.
Qed.

Lemma split_on_first (sep : ascii) (a b : string) :
  count_char sep a = 0 →
  split_on sep (a +:+ String sep b) = a :: split_on sep b.
Proof.
  induction a as [|c a IH].
  - intros _. change ("" +:+ String sep b) with (String sep b).
    cbn [split_on]. by rewrite Ascii.eqb_refl.
  - change (String c a +:+ String sep b) with (String c (a +:+ String sep b)).
    cbn [split_on count_char].
    destruct (Ascii.eqb c sep); [done|]. intros Ha. by rewrite IH.
Qed.

Lemma split_on_two (sep : ascii) (s a b : string) :
  split_on sep s = [a; b] →
  s = a +:+ String sep b ∧ count_char sep a = 0 ∧ count_char sep b = 0.
Proof.
  revert a. induction s as [|c s IH]; intros a; [done|].
  cbn [split_on]. destruct (Ascii.eqb_spec c sep) as [->|Hne].
  - intros [= <- Hs].
    pose proof (split_on_length sep s) as Hlen. rewrite Hs in Hlen.
    simpl in Hlen. assert (count_char sep s = 0) as Hcount by lia.
    rewrite split_on_no_sep in Hs by done. by simplify_eq.
  - destruct (split_on sep s) as [|hd tl] eqn:Hs; [done|].
    intros [= <- ->]. destruct (IH hd eq_refl) as (-> & Hhd & Hb).
    split_and!; [done| |done]. cbn [count_char].
    destruct (Ascii.eqb_spec c sep); [done | by rewrite Hhd].
Qed.

Lemma parse_variable_token (var value : string) :
  count_char "=" var = 0 → count_char "=" value = 0 →
  parse_variable (var +:+ "=" +:+ value) = Some (var, value).
Proof.
  intros Hvar Hvalue. unfold parse_variable.
  change (var +:+ "=" +:+ value) with (var +:+ String "=" value).
  by rewrite split_on_first, split_on_no_sep.
Qed.

(** X1: a token unpacks into a variable and a value exactly when it is the
    variable, one ["="] and the value, with no further ["="] in either;
    the variable and the value may be empty. *)
Theorem X1_parse_variable_round_trip (variable var value : string) :
  parse_variable variable = Some (var, value)
  ↔ variable = var +:+ "=" +:+ value
    ∧ count_char "=" var = 0 ∧ count_char "=" value = 0.
Proof.
  unfold parse_variable. split.
  - destruct (split_on "=" variable) as [|a [|b [|c parts]]] eqn:Hs;
      try discriminate.
    intros [= <- <-]. by apply split_on_two.
  - intros (-> & Hvar & Hvalue). fold (parse_variable (var +:+ "=" +:+ value)).
    by apply parse_variable_token.
Qed.

Example run_parse_variable_edges :
  parse_variable "=1" = Some ("", "1")
  ∧ parse_variable "A=" = Some ("A", "")
  ∧ parse_variable "=" = Some ("", "")
  ∧ parse_variable "" = None
  ∧ parse_variable "A==1" = None.
Proof. vm_compute. done. Qed.

(** ** [set] and [unset] on well-formed input *)

Lemma get_app {V : Type} (k : string) (d1 d2 : PyDict.t V) :
  PyDict.get k (d1 ++ d2)
  = match PyDict.get k d1 with Some v => Some v | None => PyDict.get k d2 end.
Proof.
  induction d1 as [|[k' v'] d1 IH]; [done|].
  simpl. by destruct (String.eqb k k').
Qed.

Lemma keys_setitem {V : Type} (k : string) (v : V) (d : PyDict.t V) :
  PyDict.keys (PyDict.setitem k v d)
  = if PyDict.contains k d then PyDict.keys d else PyDict.keys d ++ [k].
Proof.
  induction d as [|[k' v'] d IH]; [done|].
  cbn [PyDict.setitem PyDict.contains]. destruct (String.eqb k k'); [done|].
  unfold PyDict.keys in *. rewrite !fmap_cons, IH.
  by destruct (PyDict.contains k d).
Qed.

(** Stores one after the other: the last value stored for a key is the one
    read, the keys that were there keep their place. *)
Lemma get_stores (pairs : list (string * string)) (d : PyDict.t string) (k : string) :
  PyDict.get k (foldl (λ d p, PyDict.setitem p.1 p.2 d) d pairs)
  = match PyDict.get k (reverse pairs) with
    | Some v => Some v
    | None => PyDict.get k d
    end.
Proof.
  revert d. induction pairs as [|[var value] pairs IH]; intros d; [done|].
  simpl. rewrite IH, reverse_cons, get_app.
  destruct (PyDict.get k (reverse pairs)); [done|]. simpl.
  destruct (String.eqb_spec k var) as [->|Hne].
  - by rewrite PyDictFacts.get_setitem_eq.
  - by rewrite PyDictFacts.get_setitem_ne.
Qed.

Lemma keys_stores (pairs : list (string * string)) (d : PyDict.t string) :
  PyDict.keys d `prefix_of`
    PyDict.keys (foldl (λ d p, PyDict.setitem p.1 p.2 d) d pairs).
Proof.
  revert d. induction pairs as [|[var value] pairs IH]; intros d; [done|].
  simpl. etrans; [|apply IH]. rewrite keys_setitem.
  destruct (PyDict.contains var d); [done | by apply prefix_app_r].
Qed.

(** Removing keys one after the other leaves the items of the other keys,
    in their order. *)
Lemma removes_filter {V : Type} (variables : list string) (d : PyDict.t V) :
  foldl (λ d x, PyDict.remove x d) d variables
  = filter (λ item, item.1 ∉ variables) d.
Proof.
  revert d. induction variables as [|var variables IH]; intros d.
  - simpl. induction d as [|item d IHd]; [done|].
    rewrite filter_cons_True by apply not_elem_of_nil. by rewrite <- IHd.
  - simpl. rewrite IH. clear IH. induction d as [|[k v] d IHd]; [done|].
    cbn [PyDict.remove]. destruct (String.eqb_spec var k) as [->|Hne].
    + rewrite IHd. rewrite (filter_cons_False _ (k, v)); [done|].
      intros Hnot. apply Hnot. left.
    + destruct (decide (k ∈ variables)) as [Hin|Hnin].
      * rewrite filter_cons_False by (intros Hnot; by apply Hnot).
        rewrite IHd. rewrite filter_cons_False; [done|].
        intros Hnot. apply Hnot. by right.
      * rewrite filter_cons_True by exact Hnin.
        rewrite IHd. rewrite filter_cons_True; [done|].
        simpl. intros [?|?]%elem_of_cons; congruence.
Qed.

Section set_unset_runs.
Variable repr : string → string.

(** The token of a variable and its value. *)
Lemma parse_variables_tokens (pairs acc : list (string * string)) (w : world) :
  Forall (λ p, count_char "=" p.1 = 0 ∧ count_char "=" p.2 = 0) pairs →
  parse_variables repr ((λ p, p.1 +:+ "=" +:+ p.2) <$> pairs) acc w
  = (Done (acc ++ pairs), w).
Proof.
  intros Hpairs. revert acc.
  induction Hpairs as [|[var value] pairs [Hvar Hvalue] _ IH]; intros acc.
  - simpl. by rewrite app_nil_r.
  - rewrite fmap_cons. cbn [parse_variables].
    replace (parse_variable ((var, value).1 +:+ "=" +:+ (var, value).2))
      with (Some (var, value)) by (symmetry; by apply parse_variable_token).
    rewrite IH. by rewrite <- app_assoc.
Qed.
End set_unset_runs.

Lemma deref_insert (d : PyDict.t ref) (h : list (PyDict.t string))
    (f : list (string * PyDict.t string)) (env : ref) (s : PyDict.t string) :
  env < length h → deref (World d (<[env := s]> h) f) env = s.
Proof. intros Hlt. unfold deref. simpl. by apply list_lookup_total_insert_eq. Qed.

(** The stores of [set] on a dictionary of the heap. *)
Lemma assign_variables_run (env : ref) (pairs : list (string * string)) (w : world) :
  env < length (heap w) →
  assign_variables env pairs w
  = (Done (),
     World (profiles w)
       (<[env := foldl (λ d p, PyDict.setitem p.1 p.2 d) (deref w env) pairs]> (heap w))
       (file w)).
Proof.
  revert w. induction pairs as [|[var value] pairs IH]; intros w Hlt.
  - unfold ret. simpl. by rewrite insert_deref, world_eta.
  - cbn [assign_variables]. unfold bind, mutate. rewrite IH.
    + rewrite deref_insert by done. simpl.
      by rewrite list_insert_insert_eq.
    + simpl. by rewrite length_insert.
Qed.

(** The loop of [unset] on distinct variables that the profile has. *)
Lemma unset_variables_run (repr : string → string) (profile_name : string)
    (env : ref) (variables : list string) (w : world) :
  NoDup variables →
  (∀ k, k ∈ variables → PyDict.contains k (deref w env) = true) →
  unset_variables repr profile_name env variables w
  = (Done (),
     World (profiles w)
       (<[env := foldl (λ d x, PyDict.remove x d) (deref w env) variables]> (heap w))
       (file w)).
Proof.
  intros Hnd. revert w. induction Hnd as [|var variables Hvar Hnd IH]; intros w Hall.
  - unfold ret. simpl. by rewrite insert_deref, world_eta.
  - assert (PyDict.contains var (deref w env) = true) as Hc by (apply Hall; left).
    rewrite unset_variables_present by done.
    rewrite IH.
    + rewrite deref_after_remove by done. simpl.
      by rewrite list_insert_insert_eq.
    + intros k Hk. rewrite deref_after_remove by done.
      rewrite PyDictFacts.contains_remove_ne; [apply Hall; by right|].
      intros ->. done.
Qed.

(** X2: [set] on well-formed tokens.  Every token being a variable, ["="]
    and a value, the command ends with the success message, keeps the
    profiles of the document bound as they were and writes the document it
    leaves.  In the profile, a variable that was set reads the value of its
    last token, any other variable reads what it read before, and the keys
    that were there keep their place before the new ones. *)
Theorem X2_set_last_value_wins (repr : string → string) (profile_name : string)
    (env : ref) (pairs : list (string * string)) (w : world) :
  PyDict.get profile_name (profiles w) = Some env →
  env < length (heap w) →
  Forall (λ p, count_char "=" p.1 = 0 ∧ count_char "=" p.2 = 0) pairs →
  ∃ w' after,
    set repr profile_name ((λ p, p.1 +:+ "=" +:+ p.2) <$> pairs) w
    = (Raised (ExitWithSuccess ("Updated profile " +:+ repr profile_name)), w')
    ∧ profiles w' = profiles w
    ∧ file w' = snapshot w'
    ∧ settings_of w' profile_name = Some after
    ∧ (∀ k, PyDict.get k after
            = match PyDict.get k (reverse pairs) with
              | Some v => Some v
              | None => PyDict.get k (deref w env)
              end)
    ∧ PyDict.keys (deref w env) `prefix_of` PyDict.keys after.
Proof.
  intros Henv Hlt Hpairs. eexists. eexists. split.
  { unfold set, bind, profile_ref. rewrite Henv.
    rewrite parse_variables_tokens by done.
    rewrite assign_variables_run by done. reflexivity. }
  cbn [profiles file]. split_and!; [done|done| | |].
  - unfold settings_of. cbn [profiles]. rewrite Henv. simpl.
    by rewrite deref_insert.
  - intros k. apply get_stores.
  - apply keys_stores.
Qed.

Lemma X2_set_last_value_wins_witness :
  let w := World [("default", 0)] [[("A", "0"); ("B", "2")]]
             [("default", [("A", "0"); ("B", "2")])] in
  let pairs := [("C", "3"); ("A", "1"); ("C", "4")] in
  ∃ w' after,
    set repr_plain "default" ((λ p, p.1 +:+ "=" +:+ p.2) <$> pairs) w
    = (Raised (ExitWithSuccess ("Updated profile " +:+ repr_plain "default")), w')
    ∧ profiles w' = profiles w
    ∧ file w' = snapshot w'
    ∧ settings_of w' "default" = Some after
    ∧ (∀ k, PyDict.get k after
            = match PyDict.get k (reverse pairs) with
              | Some v => Some v
              | None => PyDict.get k (deref w 0)
              end)
    ∧ PyDict.keys (deref w 0) `prefix_of` PyDict.keys after.
Proof.
  intros w pairs. apply (X2_set_last_value_wins repr_plain "default" 0 pairs w).
  - reflexivity.
  - simpl. lia.
  - repeat constructor.
Defined.

Example run_set_last_value :
  let w := World [("default", 0)] [[("A", "0"); ("B", "2")]]
             [("default", [("A", "0"); ("B", "2")])] in
  settings_of (set repr_plain "default" ["C=3"; "A=1"; "C=4"] w).2 "default"
  = Some [("A", "1"); ("B", "2"); ("C", "4")].
Proof. vm_compute. reflexivity. Qed.

(** X3: [unset] on distinct variables that the profile has.  The command
    ends with the success message, keeps the profiles of the document bound
    as they were and writes the document it leaves; the profile has lost
    the variables named and keeps its other settings, in their order. *)
Theorem X3_unset_removes_the_variables (repr : string → string)
    (profile_name : string) (env : ref) (variables : list string) (w : world) :
  PyDict.get profile_name (profiles w) = Some env →
  NoDup variables →
  (∀ k, k ∈ variables → PyDict.contains k (deref w env) = true) →
  ∃ w',
    unset repr profile_name variables w
    = (Raised (ExitWithSuccess ("Updated profile " +:+ repr profile_name)), w')
    ∧ profiles w' = profiles w
    ∧ file w' = snapshot w'
    ∧ settings_of w' profile_name
      = Some (filter (λ item, item.1 ∉ variables) (deref w env)).
Proof.
  intros Henv Hnd Hall. eexists. split.
  { unfold unset, bind, profile_ref. rewrite Henv.
    rewrite unset_variables_run by done. reflexivity. }
  cbn [profiles file]. split_and!; [done|done|].
  unfold settings_of. cbn [profiles]. rewrite Henv. simpl. f_equal.
  destruct variables as [|var variables].
  - rewrite <- removes_filter. simpl. by rewrite insert_deref.
  - rewrite deref_insert; [apply removes_filter|].
    apply (contains_deref_lt w env var). apply Hall. left.
Qed.

Lemma X3_unset_removes_the_variables_witness :
  let w := World [("default", 0)] [[("A", "1"); ("B", "2"); ("C", "3")]]
             [("default", [("A", "1"); ("B", "2"); ("C", "3")])] in
  ∃ w',
    unset repr_plain "default" ["C"; "A"] w
    = (Raised (ExitWithSuccess ("Updated profile " +:+ repr_plain "default")), w')
    ∧ profiles w' = profiles w
    ∧ file w' = snapshot w'
    ∧ settings_of w' "default"
      = Some (filter (λ item, item.1 ∉ ["C"; "A"]) (deref w 0)).
Proof.
  intros w. apply (X3_unset_removes_the_variables repr_plain "default" 0 ["C"; "A"] w).
  - reflexivity.
  - compute_done.
  - intros k Hk. apply list_elem_of_In in Hk. simpl in Hk.
    destruct Hk as [<-|[<-|[]]]; reflexivity.
Defined.

Lemma remove_absent {V : Type} (k : string) (d : PyDict.t V) :
  PyDict.contains k d = false → PyDict.remove k d = d.
Proof.
  induction d as [|[k' v'] d IH]; [done|].
  simpl. destruct (String.eqb k k'); [done|]. intros Hc. by rewrite IH.
Qed.

Lemma remove_setitem_fresh {V : Type} (k : string) (v : V) (d : PyDict.t V) :
  PyDict.contains k d = false → PyDict.remove k (PyDict.setitem k v d) = d.
Proof.
  induction d as [|[k' v'] d IH]; simpl.
  - by rewrite String.eqb_refl.
  - destruct (String.eqb k k') eqn:E; [done|]. intros Hc.
    simpl. rewrite E. by rewrite IH.
Qed.

(** The file does not enter the document by value. *)
Lemma snapshot_file (d : PyDict.t ref) (h : list (PyDict.t string))
    (f f' : list (string * PyDict.t string)) :
  snapshot (World d h f) = snapshot (World d h f').
Proof. done. Qed.

(** X4: [unset] undoes [set].  After setting one variable that the profile
    did not have, unsetting it succeeds and the document in memory is the one
    before the two commands, dictionary for dictionary; the file holds that
    document. *)
Theorem X4_unset_undoes_set (repr : string → string) (profile_name : string)
    (env : ref) (var value : string) (w : world) :
  PyDict.get profile_name (profiles w) = Some env →
  env < length (heap w) →
  count_char "=" var = 0 →
  count_char "=" value = 0 →
  PyDict.contains var (deref w env) = false →
  unset repr profile_name [var]
    (set repr profile_name [var +:+ "=" +:+ value] w).2
  = (Raised (ExitWithSuccess ("Updated profile " +:+ repr profile_name)),
     World (profiles w) (heap w) (snapshot w)).
Proof.
  intros Henv Hlt Hvar Hvalue Hfresh.
  assert (Hset : (set repr profile_name [var +:+ "=" +:+ value] w).2
                 = let h := <[env := PyDict.setitem var value (deref w env)]> (heap w) in
                   World (profiles w) h (snapshot (World (profiles w) h (file w)))).
  { unfold set, bind, profile_ref. rewrite Henv.
    change [var +:+ "=" +:+ value]
      with ((λ p : string * string, p.1 +:+ "=" +:+ p.2) <$> [(var, value)]).
    rewrite (parse_variables_tokens repr [(var, value)] [] w)
      by (repeat constructor; done).
    by rewrite assign_variables_run by done. }
  rewrite Hset. cbn zeta. unfold unset, bind, profile_ref. cbn [profiles].
  rewrite Henv. rewrite unset_variables_run.
  - cbn [foldl profiles heap file]. rewrite deref_insert by done.
    rewrite remove_setitem_fresh by done.
    rewrite list_insert_insert_eq, insert_deref.
    unfold write_profiles, exit_with_success, raise. cbn [profiles heap file].
    by destruct w.
  - apply NoDup_singleton.
  - intros k ->%list_elem_of_singleton. rewrite deref_insert by done.
    by rewrite PyDictFacts.contains_setitem, String.eqb_refl.
Qed.

Lemma X4_unset_undoes_set_witness :
  let w := World [("default", 0)] [[("A", "1")]] [("default", [("A", "1")])] in
  unset repr_plain "default" ["B"] (set repr_plain "default" ["B" +:+ "=" +:+ "2"] w).2
  = (Raised (ExitWithSuccess ("Updated profile " +:+ repr_plain "default")),
     World (profiles w) (heap w) (snapshot w)).
Proof.
  intros w. apply (X4_unset_undoes_set repr_plain "default" 0 "B" "2" w);
    try reflexivity. simpl. lia.
Defined.

(** ** [create] *)

Lemma create_run_empty (name : string) (from_name : option string) (w : world) :
  PyDict.contains name (profiles w) = false →
  truthy from_name = None →
  create name from_name w
  = (Done (),
     let d := profiles w ++ [(name, length (heap w))] in
     let h := heap w ++ [[]] in
     World d h (snapshot (World d h (file w)))).
Proof.
  intros Hname Hfrom. unfold create, bind, has_profile, new_dict, bind_profile.
  rewrite Hname, Hfrom. cbn [profiles heap file].
  by rewrite PyDictFacts.setitem_fresh.
Qed.

Lemma create_run_from (name from_name : string) (from : option string) (r : ref)
    (w : world) :
  PyDict.contains name (profiles w) = false →
  truthy from = Some from_name →
  PyDict.get from_name (profiles w) = Some r →
  create name from w
  = (Done (),
     let d := profiles w ++ [(name, r)] in
     World d (heap w) (snapshot (World d (heap w) (file w)))).
Proof.
  intros Hname Hfrom Hr.
  assert (PyDict.contains from_name (profiles w) = true) as Hc
    by (apply PyDictFacts.get_contains; eauto).
  unfold create, bind, has_profile, profile_ref, bind_profile.
  rewrite Hname, Hfrom, Hc, Hr. cbn [profiles heap file].
  by rewrite PyDictFacts.setitem_fresh.
Qed.

Lemma settings_of_alloc (d : PyDict.t ref) (h : list (PyDict.t string))
    (f f' : list (string * PyDict.t string)) (m : string) :
  settings_of (World d (h ++ [[]]) f) m = settings_of (World d h f') m.
Proof.
  unfold settings_of, deref. simpl. destruct (PyDict.get m d); [simpl|done].
  by rewrite lookup_total_alloc.
Qed.

(** X5: [create] without a profile to copy ([--from] not given, or given as
    the empty string).  For a name that is not taken the command returns,
    the new profile is the last of the document and has no setting, every
    other profile reads as before, and the file holds the new document. *)
Theorem X5_create_adds_an_empty_profile (name : string) (from_name : option string)
    (w : world) :
  PyDict.contains name (profiles w) = false →
  truthy from_name = None →
  ∃ w',
    create name from_name w = (Done (), w')
    ∧ PyDict.keys (profiles w') = PyDict.keys (profiles w) ++ [name]
    ∧ settings_of w' name = Some []
    ∧ (∀ m, m ≠ name → settings_of w' m = settings_of w m)
    ∧ file w' = snapshot w'.
Proof.
  intros Hname Hfrom. eexists. split; [by apply create_run_empty|].
  cbn zeta. cbn [profiles file]. split_and!; [| | |done].
  - unfold PyDict.keys. by rewrite fmap_app.
  - unfold settings_of, deref. cbn [profiles heap].
    rewrite get_app. apply PyDictFacts.get_None_contains in Hname as ->.
    simpl. rewrite String.eqb_refl. simpl.
    by rewrite lookup_total_alloc, list_lookup_total_alt, lookup_ge_None_2.
  - intros m Hm. rewrite (settings_of_alloc _ _ _ (file w)).
    unfold settings_of. cbn [profiles]. rewrite get_app.
    destruct (PyDict.get m (profiles w)); [by destruct w|].
    simpl. destruct (String.eqb_spec m name); [done | by destruct w].
Qed.

Lemma X5_create_adds_an_empty_profile_witness :
  let w := World [("default", 0)] [[("A", "1")]] [("default", [("A", "1")])] in
  ∃ w',
    create "work" (Some "") w = (Done (), w')
    ∧ PyDict.keys (profiles w') = PyDict.keys (profiles w) ++ ["work"]
    ∧ settings_of w' "work" = Some []
    ∧ (∀ m, m ≠ "work" → settings_of w' m = settings_of w m)
    ∧ file w' = snapshot w'.
Proof.
  intros w. apply (X5_create_adds_an_empty_profile "work" (Some "") w); reflexivity.
Defined.

(** X6: a profile made by [create] without [--from] is independent.  In a
    document whose profiles all have their dictionary, whatever [set] then
    stores in the new profile, the settings of every other profile stay
    those from before [create]. *)
Theorem X6_create_empty_is_independent (repr : string → string) (name : string)
    (from_name : option string) (variables : list string) (w : world) :
  PyDict.contains name (profiles w) = false →
  truthy from_name = None →
  (∀ m r, PyDict.get m (profiles w) = Some r → r < length (heap w)) →
  ∀ m, m ≠ name →
    settings_of (set repr name variables (create name from_name w).2).2 m
    = settings_of w m.
Proof.
  intros Hname Hfrom Hwf m Hm. rewrite create_run_empty by done. cbn zeta.
  cbn [snd].
  set (d := profiles w ++ [(name, length (heap w))]).
  set (w1 := World d (heap w ++ [[]]) _).
  assert (Hnew : PyDict.get name (profiles w1) = Some (length (heap w))).
  { subst w1 d. cbn [profiles]. rewrite get_app.
    apply PyDictFacts.get_None_contains in Hname as ->.
    simpl. by rewrite String.eqb_refl. }
  assert (Hold : PyDict.get m (profiles w1) = PyDict.get m (profiles w)).
  { subst w1 d. cbn [profiles]. rewrite get_app.
    destruct (PyDict.get m (profiles w)); [done|].
    simpl. by destruct (String.eqb_spec m name). }
  assert (Hsame : settings_of w1 m = settings_of w m).
  { unfold settings_of. rewrite Hold.
    destruct (PyDict.get m (profiles w)); [simpl|done].
    unfold deref. subst w1. cbn [heap]. by rewrite lookup_total_alloc. }
  destruct (set_frame repr name variables w1 _ Hnew) as [Hp Hframe].
  destruct (PyDict.get m (profiles w)) as [r|] eqn:Hr.
  - rewrite (Hframe m r); [done| by rewrite Hold |].
    apply Hwf in Hr. lia.
  - rewrite <- Hsame. unfold settings_of. rewrite Hp. by rewrite Hold.
Qed.

Lemma X6_create_empty_is_independent_witness :
  let w := World [("default", 0)] [[("A", "1")]] [("default", [("A", "1")])] in
  settings_of (set repr_plain "work" ["A=2"; "B=3"] (create "work" None w).2).2 "default"
  = settings_of w "default".
Proof.
  intros w.
  apply (X6_create_empty_is_independent repr_plain "work" None); try reflexivity.
  - intros m r. simpl. destruct (String.eqb m "default"); [|done].
    intros [= <-]. lia.
  - discriminate.
Defined.

(** What [create] does when it returns: the new name goes last, bound to a
    dictionary that is new or, with [--from], to the one copied from. *)
Lemma create_returns (name : string) (from_name : option string) (w w' : world) :
  create name from_name w = (Done (), w') →
  PyDict.contains name (profiles w) = false
  ∧ ∃ r h, (h = heap w ∨ h = heap w ++ [[]])
      ∧ w' = World (profiles w ++ [(name, r)]) h
               (snapshot (World (profiles w ++ [(name, r)]) h (file w))).
Proof.
  intros Hrun. destruct (PyDict.contains name (profiles w)) eqn:Hname.
  { unfold create, bind, has_profile in Hrun. by rewrite Hname in Hrun. }
  split; [done|]. destruct (truthy from_name) as [f|] eqn:Hfrom.
  - destruct (PyDict.get f (profiles w)) as [r|] eqn:Hr.
    + rewrite (create_run_from name f from_name r) in Hrun by done.
      exists r, (heap w). split; [by left | by simplify_eq].
    + apply PyDictFacts.get_None_contains in Hr.
      unfold create, bind, has_profile in Hrun.
      by rewrite Hname, Hfrom, Hr in Hrun.
  - rewrite create_run_empty in Hrun by done.
    exists (length (heap w)), (heap w ++ [[]]). split; [by right | by simplify_eq].
Qed.

Lemma snapshot_alloc (d : PyDict.t ref) (h : list (PyDict.t string))
    (f f' : list (string * PyDict.t string)) :
  snapshot (World d (h ++ [[]]) f) = snapshot (World d h f').
Proof.
  unfold snapshot, deref. simpl. apply list_fmap_ext. intros i [n r] _.
  simpl. by rewrite lookup_total_alloc.
Qed.

(** X7: the outcomes of [create].  A name that is taken ends the command with
    the exit code 1, and a profile to copy that does not exist with an error
    whose message is the text of the source as it stands (the name is not
    filled in); both leave the state as it was.  When the command returns, it
    has written the document it leaves, in which every profile that existed
    is bound as before and reads as before. *)
Theorem X7_create_outcomes (name : string) (from_name : option string) (w : world) :
  (PyDict.contains name (profiles w) = true →
   create name from_name w = (Raised (TyperExit 1), w))
  ∧ (∀ f, PyDict.contains name (profiles w) = false →
          truthy from_name = Some f →
          PyDict.contains f (profiles w) = false →
          create name from_name w
          = (Raised (ExitWithError "Profile {from_name!r} not found."), w))
  ∧ (∀ w', create name from_name w = (Done (), w') →
       file w' = snapshot w'
       ∧ ∀ m, PyDict.contains m (profiles w) = true →
           PyDict.get m (profiles w') = PyDict.get m (profiles w)
           ∧ settings_of w' m = settings_of w m).
Proof.
  split_and!.
  - intros Hname. unfold create, bind, has_profile. by rewrite Hname.
  - intros f Hname Hfrom Hf. unfold create, bind, has_profile.
    by rewrite Hname, Hfrom, Hf.
  - intros w' (Hname & r & h & Hh & ->)%create_returns. split; [done|].
    intros m [x Hx]%PyDictFacts.get_contains.
    assert (Hget : PyDict.get m (profiles w ++ [(name, r)]) = PyDict.get m (profiles w))
      by by rewrite get_app, Hx.
    split; [exact Hget|].
    unfold settings_of. cbn [profiles]. rewrite Hget, Hx. simpl. f_equal.
    unfold deref. cbn [heap]. destruct Hh as [->| ->]; [done|].
    apply lookup_total_alloc.
Qed.

Lemma X7_create_outcomes_witness :
  let w := World [("default", 0); ("job", 1)] [[]; [("A", "1")]]
             [("default", []); ("job", [("A", "1")])] in
  create "job" (Some "default") w = (Raised (TyperExit 1), w)
  ∧ create "work" (Some "prod") w
    = (Raised (ExitWithError "Profile {from_name!r} not found."), w)
  ∧ (file (create "work" (Some "job") w).2 = snapshot (create "work" (Some "job") w).2
     ∧ ∀ m, PyDict.contains m (profiles w) = true →
         PyDict.get m (profiles (create "work" (Some "job") w).2)
         = PyDict.get m (profiles w)
         ∧ settings_of (create "work" (Some "job") w).2 m = settings_of w m).
Proof.
  intros w. split; [|split].
  - apply (X7_create_outcomes "job" (Some "default") w). reflexivity.
  - apply (proj1 (proj2 (X7_create_outcomes "work" (Some "prod") w)) "prod");
      reflexivity.
  - apply (proj2 (proj2 (X7_create_outcomes "work" (Some "job") w))
             (create "work" (Some "job") w).2).
    reflexivity.
Defined.

(** X8: [rm] undoes [create].  When [create] has returned, with or without
    [--from], removing the new profile (any name but ["default"]) succeeds and
    leaves the document that [create] started from: the same profiles in the
    same order, reading the same settings, and the file holds it. *)
Theorem X8_rm_undoes_create (repr : string → string) (name : string)
    (from_name : option string) (w w1 : world) :
  create name from_name w = (Done (), w1) →
  name ≠ "default" →
  ∃ w2,
    rm repr name w1 = (Raised (removed repr "Removed" name), w2)
    ∧ profiles w2 = profiles w
    ∧ snapshot w2 = snapshot w
    ∧ file w2 = snapshot w.
Proof.
  intros (Hname & r & h & Hh & ->)%create_returns Hne.
  eexists. split.
  { apply rm_other; [done|]. cbn [profiles].
    apply PyDictFacts.get_contains. rewrite get_app.
    apply PyDictFacts.get_None_contains in Hname as ->.
    simpl. rewrite String.eqb_refl. by eexists. }
  cbn zeta. cbn [profiles heap file].
  assert (Hback : PyDict.remove name (profiles w ++ [(name, r)]) = profiles w).
  { rewrite <- PyDictFacts.setitem_fresh by done. by apply remove_setitem_fresh. }
  rewrite Hback. split_and!; [done| |].
  - destruct Hh as [->| ->]; [by destruct w|].
    rewrite (snapshot_alloc _ _ _ (file w)). by destruct w.
  - destruct Hh as [->| ->]; [by destruct w|].
    rewrite (snapshot_alloc _ _ _ (file w)). by destruct w.
Qed.

Lemma X8_rm_undoes_create_witness :
  let w := World [("default", 0); ("job", 1)] [[]; [("A", "1")]]
             [("default", []); ("job", [("A", "1")])] in
  ∃ w2,
    rm repr_plain "work" (create "work" (Some "job") w).2
    = (Raised (removed repr_plain "Removed" "work"), w2)
    ∧ profiles w2 = profiles w
    ∧ snapshot w2 = snapshot w
    ∧ file w2 = snapshot w.
Proof.
  intros w.
  apply (X8_rm_undoes_create repr_plain "work" (Some "job") w); [reflexivity | discriminate].
Defined.

(** ** [rename] *)

Lemma rename_run (repr : string → string) (name new_name : string) (r : ref)
    (w : world) :
  PyDict.get name (profiles w) = Some r →
  PyDict.contains new_name (profiles w) = false →
  rename repr name new_name w
  = (Raised (renamed repr name new_name),
     let d := PyDict.remove name (profiles w) ++ [(new_name, r)] in
     World d (heap w) (snapshot (World d (heap w) (file w)))).
Proof.
  intros Hr Hnew.
  assert (PyDict.contains name (profiles w) = true) as Hname
    by (apply PyDictFacts.get_contains; eauto).
  assert (name ≠ new_name) as Hne by congruence.
  unfold rename, bind, has_profile, pop_profile, PyDict.pop, bind_profile.
  rewrite Hname, Hnew, Hr. cbn [profiles heap file].
  rewrite PyDictFacts.setitem_fresh; [done|].
  by rewrite PyDictFacts.contains_remove_ne.
Qed.

(** X9: [rename] moves the profile to the end.  The other profiles keep
    their order, the new name comes last. *)
Theorem X9_rename_goes_last (repr : string → string) (name new_name : string)
    (w : world) :
  PyDict.contains name (profiles w) = true →
  PyDict.contains new_name (profiles w) = false →
  PyDict.keys (profiles (rename repr name new_name w).2)
  = filter (λ n, n ≠ name) (PyDict.keys (profiles w)) ++ [new_name].
Proof.
  intros [r Hr]%PyDictFacts.get_contains Hnew.
  rewrite (rename_run repr name new_name r) by done. cbn zeta. cbn [snd profiles].
  rewrite <- PyDictFacts.keys_remove. unfold PyDict.keys. by rewrite fmap_app.
Qed.

Lemma X9_rename_goes_last_witness :
  let w := World [("default", 0); ("work", 1); ("job", 2)] [[]; [("A", "1")]; []]
             [("default", []); ("work", [("A", "1")]); ("job", [])] in
  PyDict.keys (profiles (rename repr_plain "work" "main" w).2)
  = filter (λ n, n ≠ "work") (PyDict.keys (profiles w)) ++ ["main"].
Proof.
  intros w. apply (X9_rename_goes_last repr_plain "work" "main" w); reflexivity.
Defined.

(** X10: renaming a profile and renaming it back.  The second [rename]
    succeeds and every name is bound to the dictionary it was bound to at the
    start, no dictionary having changed; the profile is now the last of the
    document. *)
Theorem X10_rename_there_and_back (repr : string → string) (name new_name : string)
    (w : world) :
  PyDict.contains name (profiles w) = true →
  PyDict.contains new_name (profiles w) = false →
  ∃ w2,
    rename repr new_name name (rename repr name new_name w).2
    = (Raised (renamed repr new_name name), w2)
    ∧ (∀ m, PyDict.get m (profiles w2) = PyDict.get m (profiles w))
    ∧ heap w2 = heap w
    ∧ PyDict.keys (profiles w2)
      = filter (λ n, n ≠ name) (PyDict.keys (profiles w)) ++ [name]
    ∧ file w2 = snapshot w2.
Proof.
  intros Hname Hnew.
  assert (name ≠ new_name) as Hne by congruence.
  apply PyDictFacts.get_contains in Hname as [r Hr].
  rewrite (rename_run repr name new_name r) by done. cbn zeta. cbn [snd].
  set (d := PyDict.remove name (profiles w)).
  assert (Hd : PyDict.contains new_name d = false)
    by (subst d; by rewrite PyDictFacts.contains_remove_ne).
  eexists. split.
  { apply (rename_run repr new_name name r); cbn [profiles].
    - rewrite get_app. apply PyDictFacts.get_None_contains in Hd as ->.
      simpl. by rewrite String.eqb_refl.
    - apply PyDictFacts.contains_false_keys. unfold PyDict.keys.
      rewrite fmap_app. simpl. intros [Hin|Hin%list_elem_of_singleton]%elem_of_app.
      + apply PyDictFacts.contains_keys in Hin. subst d.
        by rewrite PyDictFacts.contains_remove_eq in Hin.
      + done. }
  cbn zeta. cbn [profiles heap file].
  assert (Hback : PyDict.remove new_name (d ++ [(new_name, r)]) = d).
  { rewrite <- PyDictFacts.setitem_fresh by done. by apply remove_setitem_fresh. }
  rewrite Hback. split_and!; [|done| |done].
  - intros m. rewrite get_app. subst d.
    destruct (String.eqb_spec m name) as [->|Hm].
    + assert (PyDict.get name (PyDict.remove name (profiles w)) = None) as ->
        by apply PyDictFacts.get_None_contains, PyDictFacts.contains_remove_eq.
      simpl. by rewrite String.eqb_refl.
    + rewrite PyDictFacts.get_remove_ne by done.
      destruct (PyDict.get m (profiles w)); [done|].
      simpl. by destruct (String.eqb_spec m name).
  - subst d. rewrite <- PyDictFacts.keys_remove. unfold PyDict.keys.
    by rewrite fmap_app.
Qed.

Lemma X10_rename_there_and_back_witness :
  let w := World [("default", 0); ("work", 1); ("job", 2)] [[]; [("A", "1")]; []]
             [("default", []); ("work", [("A", "1")]); ("job", [])] in
  ∃ w2,
    rename repr_plain "main" "work" (rename repr_plain "work" "main" w).2
    = (Raised (renamed repr_plain "main" "work"), w2)
    ∧ (∀ m, PyDict.get m (profiles w2) = PyDict.get m (profiles w))
    ∧ heap w2 = heap w
    ∧ PyDict.keys (profiles w2)
      = filter (λ n, n ≠ "work") (PyDict.keys (profiles w)) ++ ["work"]
    ∧ file w2 = snapshot w2.
Proof.
  intros w. apply (X10_rename_there_and_back repr_plain "work" "main" w); reflexivity.
Defined.

(** ** What the commands keep *)

Lemma assign_variables_total (env : ref) (pairs : list (string * string)) (w : world) :
  ∃ w1, assign_variables env pairs w = (Done (), w1)
        ∧ profiles w1 = profiles w ∧ file w1 = file w.
Proof.
  revert w. induction pairs as [|[var value] pairs IH]; intros w.
  - by exists w.
  - cbn [assign_variables]. unfold bind, mutate.
    destruct (IH (World (profiles w)
                    (<[env := PyDict.setitem var value (deref w env)]> (heap w))
                    (file w))) as (w1 & -> & Hp & Hf).
    by exists w1.
Qed.

Lemma parse_variables_outcome (repr : string → string) (variables : list string)
    (acc : list (string * string)) (w : world) :
  (∃ parsed, parse_variables repr variables acc w = (Done parsed, w))
  ∨ (∃ msg, parse_variables repr variables acc w = (Raised (ExitWithError msg), w)).
Proof.
  revert acc. induction variables as [|variable variables IH]; intros acc.
  - left. by exists acc.
  - simpl. destruct (parse_variable variable); [apply IH|]. right. by eexists.
Qed.

Lemma unset_variables_outcome (repr : string → string) (profile_name : string)
    (env : ref) (variables : list string) (w : world) :
  ∃ r w1, unset_variables repr profile_name env variables w = (r, w1)
          ∧ profiles w1 = profiles w ∧ file w1 = file w
          ∧ (r = Done () ∨ ∃ msg, r = Raised (ExitWithError msg)).
Proof.
  revert w. induction variables as [|var variables IH]; intros w.
  - exists (Done ()), w. split_and!; auto.
  - cbn [unset_variables]. unfold bind, read, mutate.
    destruct (PyDict.contains var (deref w env)).
    + destruct (IH (World (profiles w)
                      (<[env := PyDict.remove var (deref w env)]> (heap w))
                      (file w))) as (r & w1 & -> & Hp & Hf & Hr).
      by exists r, w1.
    + eexists _, w. split_and!; [done|done|done|]. right. by eexists.
Qed.

(** X11: the file is written on success only.  [set], [create], [rm] and
    [rename] either succeed, and then the file holds the document they
    leave in memory, or fail and leave the whole state as it was.  [unset]
    that fails leaves the file and the names of the document as they were. *)
Theorem X11_file_written_on_success_only (repr : string → string) (w : world) :
  (∀ profile_name variables,
     let out := set repr profile_name variables w in
     if succeeded out.1 then file out.2 = snapshot out.2 else out.2 = w)
  ∧ (∀ profile_name variables,
       let out := unset repr profile_name variables w in
       if succeeded out.1 then file out.2 = snapshot out.2
       else file out.2 = file w ∧ profiles out.2 = profiles w)
  ∧ (∀ name from_name,
       let out := create name from_name w in
       if succeeded out.1 then file out.2 = snapshot out.2 else out.2 = w)
  ∧ (∀ name,
       let out := rm repr name w in
       if succeeded out.1 then file out.2 = snapshot out.2 else out.2 = w)
  ∧ (∀ name new_name,
       let out := rename repr name new_name w in
       if succeeded out.1 then file out.2 = snapshot out.2 else out.2 = w).
Proof.
  split_and!.
  - intros profile_name variables. unfold set, bind, profile_ref.
    destruct (PyDict.get profile_name (profiles w)) as [env|]; [|done].
    destruct (parse_variables_outcome repr variables [] w) as [[parsed ->]|[msg ->]];
      [|done].
    destruct (assign_variables_total env parsed w) as (w1 & -> & _ & _). done.
  - intros profile_name variables. unfold unset, bind, profile_ref.
    destruct (PyDict.get profile_name (profiles w)) as [env|]; [|done].
    destruct (unset_variables_outcome repr profile_name env variables w)
      as (r & w1 & -> & Hp & Hf & [->|[msg ->]]); done.
  - intros name from_name. unfold create, bind, has_profile.
    destruct (PyDict.contains name (profiles w)); [done|].
    destruct (truthy from_name) as [f|]; [|done].
    destruct (PyDict.contains f (profiles w)) eqn:Hf; [|done].
    apply PyDictFacts.get_contains in Hf as [r Hr].
    unfold profile_ref. by rewrite Hr.
  - intros name. unfold rm, bind, has_profile, pop_profile, PyDict.pop.
    destruct (PyDict.contains name (profiles w)) eqn:Hc; [|done].
    apply PyDictFacts.get_contains in Hc as [r ->].
    by destruct (String.eqb name "default").
  - intros name new_name. unfold rename, bind, has_profile, pop_profile, PyDict.pop.
    destruct (PyDict.contains name (profiles w)) eqn:Hc; [|done].
    destruct (PyDict.contains new_name (profiles w)); [done|].
    apply PyDictFacts.get_contains in Hc as [r ->]. done.
Qed.

(** X12: the profile ["default"] stays.  In a document that has it, [set],
    [unset], [create] and [rm] leave a document that has it, whatever their
    arguments and their outcome; so does [rename] of any other profile. *)
Theorem X12_default_profile_stays (repr : string → string) (w : world) :
  PyDict.contains "default" (profiles w) = true →
  (∀ profile_name variables,
     PyDict.contains "default" (profiles (set repr profile_name variables w).2) = true)
  ∧ (∀ profile_name variables,
       PyDict.contains "default" (profiles (unset repr profile_name variables w).2)
       = true)
  ∧ (∀ name from_name,
       PyDict.contains "default" (profiles (create name from_name w).2) = true)
  ∧ (∀ name, PyDict.contains "default" (profiles (rm repr name w).2) = true)
  ∧ (∀ name new_name, name ≠ "default" →
       PyDict.contains "default" (profiles (rename repr name new_name w).2) = true).
Proof.
  intros Hdefault. split_and!.
  - intros profile_name variables. unfold set, bind, profile_ref.
    destruct (PyDict.get profile_name (profiles w)) as [env|]; [|done].
    destruct (parse_variables_outcome repr variables [] w) as [[parsed ->]|[msg ->]];
      [|done].
    destruct (assign_variables_total env parsed w) as (w1 & -> & Hp & _).
    simpl. by rewrite Hp.
  - intros profile_name variables. unfold unset, bind, profile_ref.
    destruct (PyDict.get profile_name (profiles w)) as [env|]; [|done].
    destruct (unset_variables_outcome repr profile_name env variables w)
      as (r & w1 & -> & Hp & Hf & [->|[msg ->]]); simpl; by rewrite Hp.
  - intros name from_name. unfold create, bind, has_profile.
    destruct (PyDict.contains name (profiles w)); [done|].
    destruct (truthy from_name) as [f|].
    + destruct (PyDict.contains f (profiles w)) eqn:Hf; [|done].
      apply PyDictFacts.get_contains in Hf as [r Hr].
      unfold profile_ref. rewrite Hr. simpl.
      by rewrite PyDictFacts.contains_setitem, Hdefault, orb_true_r.
    + simpl. by rewrite PyDictFacts.contains_setitem, Hdefault, orb_true_r.
  - intros name. destruct (PyDict.contains name (profiles w)) eqn:Hc.
    + destruct (String.eqb_spec name "default") as [->|Hne].
      * rewrite rm_default by done. simpl.
        by rewrite PyDictFacts.contains_setitem.
      * rewrite rm_other by done. simpl.
        by rewrite PyDictFacts.contains_remove_ne.
    + by rewrite rm_absent.
  - intros name new_name Hne. unfold rename, bind, has_profile, pop_profile, PyDict.pop.
    destruct (PyDict.contains name (profiles w)) eqn:Hc; [|done].
    destruct (PyDict.contains new_name (profiles w)); [done|].
    apply PyDictFacts.get_contains in Hc as [r ->]. simpl.
    rewrite PyDictFacts.contains_setitem, PyDictFacts.contains_remove_ne by done.
    by rewrite Hdefault, orb_true_r.
Qed.

Lemma X12_default_profile_stays_witness :
  let w := World [("default", 0); ("job", 1)] [[]; [("A", "1")]]
             [("default", []); ("job", [("A", "1")])] in
  PyDict.contains "default" (profiles (rm repr_plain "default" w).2) = true
  ∧ PyDict.contains "default" (profiles (rename repr_plain "job" "work" w).2) = true.
Proof.
  intros w. destruct (X12_default_profile_stays repr_plain w) as (_ & _ & _ & Hrm & Hrename);
    [reflexivity|].
  split; [apply Hrm | by apply Hrename].
Defined.

(** ** [inspect] *)

Lemma overrides_of_all_known (default_settings : PyDict.t string)
    (items : list (string * string)) (acc : PyDict.t string) :
  (∀ x, x ∈ PyDict.keys items → PyDict.contains x default_settings = true) →
  ∃ overrides, overrides_of default_settings items acc = Done overrides.
Proof.
  revert acc. induction items as [|[key val] items IH]; intros acc Hknown.
  - by exists acc.
  - cbn [overrides_of].
    assert (PyDict.contains key default_settings = true) as Hkey
      by (apply Hknown; left).
    apply PyDictFacts.get_contains in Hkey as [default_val ->].
    apply IH. intros x Hx. apply Hknown. by right.
Qed.

Lemma overrides_of_first_unknown (default_settings : PyDict.t string)
    (items : list (string * string)) (acc : PyDict.t string)
    (pre : list string) (k : string) (post : list string) :
  PyDict.keys items = pre ++ k :: post →
  (∀ x, x ∈ pre → PyDict.contains x default_settings = true) →
  PyDict.contains k default_settings = false →
  overrides_of default_settings items acc = Raised (KeyError k).
Proof.
  revert acc pre. induction items as [|[key val] items IH]; intros acc pre Hkeys Hpre Hk.
  - by destruct pre.
  - unfold PyDict.keys in Hkeys. rewrite fmap_cons in Hkeys. cbn [overrides_of].
    destruct pre as [|x pre]; simplify_eq/=.
    + by apply PyDictFacts.get_None_contains in Hk as ->.
    + assert (PyDict.contains x default_settings = true) as Hx
        by (apply Hpre; left).
      apply PyDictFacts.get_contains in Hx as [default_val ->].
      apply (IH _ pre); [done| |done]. intros y Hy. apply Hpre. by right.
Qed.

(** X13: when the resolver returns.  [override_entries] returns entries
    when every key of the environment and of the current settings has a
    default; otherwise it raises the [KeyError] of the first key without a
    default, the keys of the environment being looked up before the keys of
    the current settings. *)
Theorem X13_override_entries_domain
    (current_settings env_settings default_settings : PyDict.t string) :
  ((∀ x, x ∈ PyDict.keys env_settings ++ PyDict.keys current_settings →
         PyDict.contains x default_settings = true) →
   ∃ entries,
     override_entries current_settings env_settings default_settings = Done entries)
  ∧ (∀ pre k post,
       PyDict.keys env_settings ++ PyDict.keys current_settings = pre ++ k :: post →
       (∀ x, x ∈ pre → PyDict.contains x default_settings = true) →
       PyDict.contains k default_settings = false →
       override_entries current_settings env_settings default_settings
       = Raised (KeyError k)).
Proof.
  split.
  - intros Hknown. unfold override_entries.
    destruct (overrides_of_all_known default_settings env_settings []) as [eo ->].
    { intros x Hx. apply Hknown, elem_of_app. by left. }
    destruct (overrides_of_all_known default_settings current_settings []) as [co ->].
    { intros x Hx. apply Hknown, elem_of_app. by right. }
    by eexists.
  - intros pre k post Hkeys Hpre Hk. unfold override_entries.
    apply app_eq_inv in Hkeys as [(mid & Henv & Hcur)|(mid & Hpre' & Hcur)].
    + destruct mid as [|k' mid]; simplify_eq/=.
      * rewrite app_nil_r in Henv.
        destruct (overrides_of_all_known default_settings env_settings []) as [eo ->].
        { intros x Hx. apply Hpre. by rewrite <- Henv. }
        rewrite (overrides_of_first_unknown _ current_settings [] [] k post);
          [done|done| |done].
        by intros x ?%elem_of_nil.
      * by rewrite (overrides_of_first_unknown _ env_settings [] pre k' mid).
    + subst pre.
      destruct (overrides_of_all_known default_settings env_settings []) as [eo ->].
      { intros x Hx. apply Hpre, elem_of_app. by left. }
      rewrite (overrides_of_first_unknown _ current_settings [] mid k post); [done|done| |done].
      intros x Hx. apply Hpre, elem_of_app. by right.
Qed.

Lemma X13_override_entries_domain_witness :
  (∃ entries, override_entries [("Y", "9")] [("X", "1")] [("X", "1"); ("Y", "2")]
              = Done entries)
  ∧ override_entries [("FOO", "1")] [("X", "1"); ("BAR", "2")] [("X", "1")]
    = Raised (KeyError "BAR").
Proof.
  split.
  - apply X13_override_entries_domain. intros x Hx.
    apply list_elem_of_In in Hx. simpl in Hx.
    destruct Hx as [<-|[<-|[]]]; reflexivity.
  - apply (proj2 (X13_override_entries_domain [("FOO", "1")] [("X", "1"); ("BAR", "2")]
                    [("X", "1")]) ["X"] "BAR" ["FOO"]); [reflexivity| |reflexivity].
    intros x ->%list_elem_of_singleton. reflexivity.
Defined.

(** The order of [sorted]: any two items compare one way or the other. *)
Lemma item_le_total (a b : string * string) :
  item_le a b = false → item_le b a = true.
Proof.
  unfold item_le.
  rewrite (String.compare_antisym b.1 a.1), (String.compare_antisym b.2 a.2).
  destruct (String.compare a.1 b.1), (String.compare a.2 b.2); simpl; congruence.
Qed.

Lemma insert_item_perm (x : string * string) (l : list (string * string)) :
  insert_item x l ≡ₚ x :: l.
Proof.
  induction l as [|y l IH]; [done|].
  simpl. destruct (item_le x y); [done|]. rewrite IH. apply Permutation_swap.
Qed.

Lemma insert_item_sorted (x : string * string) (l : list (string * string)) :
  Sorted (λ a b, item_le a b = true) l →
  Sorted (λ a b, item_le a b = true) (insert_item x l).
Proof.
  induction 1 as [|y l Hl IH Hhd]; simpl.
  - repeat constructor.
  - destruct (item_le x y) eqn:Hxy.
    + constructor; [by constructor | by constructor].
    + constructor; [done|].
      destruct Hhd as [|z l Hyz]; simpl.
      * constructor. by apply item_le_total.
      * destruct (item_le x z); constructor; [by apply item_le_total | done].
Qed.

Lemma sorted_perm (items : list (string * string)) : sorted items ≡ₚ items.
Proof.
  induction items as [|x items IH]; [done|].
  simpl. rewrite insert_item_perm. by rewrite IH.
Qed.

Lemma sorted_sorted (items : list (string * string)) :
  Sorted (λ a b, item_le a b = true) (sorted items).
Proof.
  induction items as [|x items IH]; [constructor|].
  simpl. by apply insert_item_sorted.
Qed.



(** X17: [inspect] reads only.  Whatever its arguments and its outcome, the
    command leaves the state as it was; and for a name that is not a profile
    it ends with the not-found error, before any default is looked up. *)
Theorem X17_inspect_reads_only (repr : string → string) (profile_name : string)
    (profile_settings default_settings env_settings : PyDict.t string)
    (name : option string) (show_defaults show_sources : bool) (w : world) :
  (inspect repr profile_name profile_settings default_settings env_settings
     name show_defaults show_sources w).2 = w
  ∧ (∀ n, truthy name = Some n → PyDict.contains n (profiles w) = false →
       (inspect repr profile_name profile_settings default_settings env_settings
          name show_defaults show_sources w).1
       = Raised (profile_not_found repr n)).
Proof.
  unfold inspect, bind, has_profile, profile_ref, read, ret. split.
  - destruct (truthy name) as [n|].
    + destruct (PyDict.contains n (profiles w)); [|done].
      destruct (PyDict.get n (profiles w)) as [r|]; [|done]. simpl.
      by destruct (override_entries _ _ _).
    + simpl. by destruct (override_entries _ _ _).
  - by intros n -> ->.
Qed.

(** ** [ls] and [get] *)

Lemma mark_other_names (current : string) (names : list string) :
  current ∉ names →
  (λ name, if String.eqb name current then "* " +:+ name else name) <$> names = names.
Proof.
  induction names as [|n names IH]; [done|].
  intros [Hn Hnames]%not_elem_of_cons. rewrite fmap_cons, IH by done.
  by destruct (String.eqb_spec n current) as [->|].
Qed.

(** X15: [ls] marks the current profile.  The lines are the names of the
    profiles in storage order; the line of the current profile, and no
    other, carries the mark, and when the current profile is not in the
    document no line does. *)
Theorem X15_ls_marks_the_current_profile (current : string) (w : world) :
  (PyDict.contains current (profiles w) = false →
   ls current w = (Done (PyDict.keys (profiles w)), w))
  ∧ (PyDict.wf (profiles w) →
     PyDict.contains current (profiles w) = true →
     ∃ pre post,
       PyDict.keys (profiles w) = pre ++ current :: post
       ∧ (current ∉ pre) ∧ (current ∉ post)
       ∧ ls current w = (Done (pre ++ ("* " +:+ current) :: post), w)).
Proof.
  unfold ls. split.
  - intros Hc%PyDictFacts.contains_false_keys. by rewrite mark_other_names.
  - intros Hwf Hc%PyDictFacts.contains_keys.
    destruct (list_elem_of_split _ _ Hc) as (pre & post & Hkeys).
    unfold PyDict.wf in Hwf. rewrite Hkeys in Hwf.
    apply NoDup_app in Hwf as (_ & Hdisj & [Hpost _]%NoDup_cons).
    assert (current ∉ pre) as Hpre by (intros Hin; apply (Hdisj _ Hin); left).
    exists pre, post. split_and!; [done|done|done|].
    rewrite Hkeys, fmap_app, fmap_cons, String.eqb_refl.
    by rewrite !mark_other_names.
Qed.

Lemma X15_ls_marks_the_current_profile_witness :
  let w := World [("default", 0); ("job", 1)] [[]; []] [] in
  ls "work" w = (Done (PyDict.keys (profiles w)), w)
  ∧ ∃ pre post,
      PyDict.keys (profiles w) = pre ++ "job" :: post
      ∧ ("job" ∉ pre) ∧ ("job" ∉ post)
      ∧ ls "job" w = (Done (pre ++ ("* " +:+ "job") :: post), w).
Proof.
  intros w. split.
  - apply (X15_ls_marks_the_current_profile "work" w). reflexivity.
  - apply (proj2 (X15_ls_marks_the_current_profile "job" w)); [|reflexivity].
    unfold PyDict.wf. compute_done.
Defined.

Lemma filter_one_name {V : Type} (name : string) (d : PyDict.t V) :
  PyDict.wf d →
  filter (λ item, item.1 ∈ [name]) d
  = match PyDict.get name d with Some v => [(name, v)] | None => [] end.
Proof.
  unfold PyDict.wf, PyDict.keys. induction d as [|[k v] d IH]; [done|].
  rewrite fmap_cons, NoDup_cons. cbn [fst]. intros [Hk Hd].
  cbn [PyDict.get]. destruct (String.eqb_spec name k) as [->|Hne].
  - rewrite filter_cons_True by (simpl; left). f_equal.
    rewrite IH by done.
    destruct (PyDict.get k d) as [v'|] eqn:Hget; [|done].
    destruct Hk. apply PyDictFacts.contains_keys, PyDictFacts.get_contains. eauto.
  - rewrite filter_cons_False by (simpl; intros ?%list_elem_of_singleton; congruence).
    by apply IH.
Qed.

(** X16: [get] without names shows the current profile.  With no name given
    the command returns the current profile alone, bound to its dictionary;
    when the document has no profile of that name it returns the empty
    mapping, without an error. *)
Theorem X16_get_defaults_to_the_current_profile (profile_name : string) (w : world) :
  PyDict.wf (profiles w) →
  get profile_name [] w
  = (Done match PyDict.get profile_name (profiles w) with
          | Some r => [(profile_name, r)]
          | None => []
          end, w).
Proof.
  intros Hwf. unfold get.
  rewrite PyDictFacts.of_items_wf by by apply PyDictFacts.wf_filter.
  by rewrite filter_one_name.
Qed.

Lemma X16_get_defaults_to_the_current_profile_witness :
  let w := World [("default", 0); ("job", 1)] [[]; [("A", "1")]] [] in
  get "job" [] w
  = (Done match PyDict.get "job" (profiles w) with
          | Some r => [("job", r)]
          | None => []
          end, w).
Proof.
  intros w. apply (X16_get_defaults_to_the_current_profile "job" w).
  unfold PyDict.wf. compute_done.
Defined.

(** ** The frame of [set] and [unset] *)

Lemma unset_variables_frame (repr : string → string) (profile_name : string)
    (env : ref) (variables : list string) (w : world) :
  ∀ r, r ≠ env →
    deref (unset_variables repr profile_name env variables w).2 r = deref w r.
Proof.
  revert w. induction variables as [|var variables IH]; intros w r Hr; [done|].
  cbn [unset_variables]. unfold bind, read, mutate.
  destruct (PyDict.contains var (deref w env)); [|done].
  rewrite IH by done. unfold deref. simpl.
  by apply list_lookup_total_insert_ne.
Qed.

(** X18: [set] and [unset] touch one dictionary.  Whatever the variables and
    the outcome, a profile bound to another dictionary than the active
    profile reads the same settings after the command as before. *)
Theorem X18_set_and_unset_touch_one_dictionary (repr : string → string)
    (profile_name : string) (env : ref) (variables : list string) (w : world) :
  PyDict.get profile_name (profiles w) = Some env →
  ∀ other r, PyDict.get other (profiles w) = Some r → r ≠ env →
    settings_of (set repr profile_name variables w).2 other = settings_of w other
    ∧ settings_of (unset repr profile_name variables w).2 other = settings_of w other.
Proof.
  intros Henv other r Hother Hr. split.
  - by apply (proj2 (set_frame repr profile_name variables w env Henv) other r).
  - unfold unset, bind, profile_ref. rewrite Henv.
    pose proof (unset_variables_frame repr profile_name env variables w r Hr) as Hd.
    destruct (unset_variables_outcome repr profile_name env variables w)
      as (res & w1 & Hrun & Hp & _ & Hres).
    rewrite Hrun in Hd |- *. simpl in Hd.
    destruct Hres as [->|[msg ->]]; unfold settings_of; simpl;
      rewrite Hp, Hother; simpl; by rewrite <- Hd.
Qed.

Lemma X18_set_and_unset_touch_one_dictionary_witness :
  let w := World [("default", 0); ("job", 1)] [[("A", "1")]; [("A", "1")]] [] in
  settings_of (set repr_plain "default" ["A=2"] w).2 "job" = settings_of w "job"
  ∧ settings_of (unset repr_plain "default" ["A"; "B"] w).2 "job" = settings_of w "job".
Proof.
  intros w.
  split;
    apply (X18_set_and_unset_touch_one_dictionary repr_plain "default" 0 _ w
             eq_refl "job" 1 eq_refl); lia.
Defined.

(** ** More on [create], [get] and [inspect] *)

(** X19: [create --from] at the time of the copy.  For a name that is not
    taken and a profile to copy that exists, the command returns, the new
    profile is the last of the document and reads the settings of the profile
    copied, which reads as before; the file holds the same settings under
    both names. *)
Theorem X19_create_from_reads_the_same_settings (name from_name : string)
    (from : option string) (w : world) :
  PyDict.contains name (profiles w) = false →
  truthy from = Some from_name →
  PyDict.contains from_name (profiles w) = true →
  ∃ w',
    create name from w = (Done (), w')
    ∧ PyDict.keys (profiles w') = PyDict.keys (profiles w) ++ [name]
    ∧ settings_of w' name = settings_of w from_name
    ∧ settings_of w' from_name = settings_of w from_name
    ∧ PyDict.get name (file w') = settings_of w from_name
    ∧ PyDict.get from_name (file w') = settings_of w from_name.
Proof.
  intros Hname Hfrom Hc.
  assert (from_name ≠ name) as Hne by congruence.
  apply PyDictFacts.get_contains in Hc as [r Hr].
  eexists. split; [by apply (create_run_from name from_name from r)|].
  cbn zeta. cbn [profiles file].
  assert (Hnew : settings_of (World (profiles w ++ [(name, r)]) (heap w) (file w)) name
                 = settings_of w from_name).
  { unfold settings_of. cbn [profiles]. rewrite get_app, Hr.
    apply PyDictFacts.get_None_contains in Hname as ->.
    simpl. by rewrite String.eqb_refl. }
  assert (Hold : settings_of (World (profiles w ++ [(name, r)]) (heap w) (file w))
                   from_name
                 = settings_of w from_name).
  { unfold settings_of. cbn [profiles]. by rewrite get_app, Hr. }
  split_and!.
  - unfold PyDict.keys. by rewrite fmap_app.
  - exact Hnew.
  - exact Hold.
  - by rewrite get_snapshot.
  - by rewrite get_snapshot.
Qed.

Lemma X19_create_from_reads_the_same_settings_witness :
  let w := World [("default", 0); ("job", 1)] [[]; [("A", "1")]]
             [("default", []); ("job", [("A", "1")])] in
  ∃ w',
    create "work" (Some "job") w = (Done (), w')
    ∧ PyDict.keys (profiles w') = PyDict.keys (profiles w) ++ ["work"]
    ∧ settings_of w' "work" = settings_of w "job"
    ∧ settings_of w' "job" = settings_of w "job"
    ∧ PyDict.get "work" (file w') = settings_of w "job"
    ∧ PyDict.get "job" (file w') = settings_of w "job".
Proof.
  intros w.
  apply (X19_create_from_reads_the_same_settings "work" "job" (Some "job") w);
    reflexivity.
Defined.

(** X20: [get] looks at the names as a set.  Two sequences of names with
    the same members, in any order and with any repetition, show the same
    profiles. *)
Theorem X20_get_depends_on_the_set_of_names (profile_name : string)
    (names names' : list string) (w : world) :
  names ≠ [] → names' ≠ [] →
  (∀ n, n ∈ names ↔ n ∈ names') →
  get profile_name names w = get profile_name names' w.
Proof.
  intros Hn Hn' Hsame. unfold get.
  destruct names as [|n names]; [done|]. destruct names' as [|n' names']; [done|].
  do 3 f_equal. apply list_filter_iff. intros item. apply Hsame.
Qed.

Lemma X20_get_depends_on_the_set_of_names_witness :
  let w := World [("default", 0); ("job", 1)] [[]; [("A", "1")]] [] in
  get "default" ["job"; "default"; "job"] w = get "default" ["default"; "job"] w.
Proof.
  intros w. apply X20_get_depends_on_the_set_of_names; [done|done|].
  intros n. rewrite !elem_of_cons, !elem_of_nil. tauto.
Defined.

Lemma wf_setitem {V : Type} (k : string) (v : V) (d : PyDict.t V) :
  PyDict.wf d → PyDict.wf (PyDict.setitem k v d).
Proof.
  unfold PyDict.wf. rewrite keys_setitem.
  destruct (PyDict.contains k d) eqn:Hc; [done|].
  intros Hwf. apply NoDup_app. split_and!; [done| |apply NoDup_singleton].
  intros x Hx ->%list_elem_of_singleton.
  by apply PyDictFacts.contains_false_keys in Hc.
Qed.

(** X21: [inspect] shows what [set] stored.  After [set] has stored a value
    that is not the default of its variable, [inspect] of that profile
    returns, and its output has the line of the variable with that value;
    the source of the line is "env" when the environment holds the same
    value for the variable and "profile" otherwise. *)
Theorem X21_inspect_shows_what_set_stored (repr : string → string)
    (active : string) (active_settings default_settings env_settings : PyDict.t string)
    (profile_name : string) (env : ref) (var value default_value : string)
    (show_defaults show_sources : bool) (w : world) :
  profile_name ≠ "" →
  PyDict.get profile_name (profiles w) = Some env →
  env < length (heap w) →
  PyDict.wf (deref w env) →
  PyDict.wf env_settings →
  count_char "=" var = 0 →
  count_char "=" value = 0 →
  (∀ x, x ∈ PyDict.keys (deref w env) → PyDict.contains x default_settings = true) →
  (∀ x, x ∈ PyDict.keys env_settings → PyDict.contains x default_settings = true) →
  PyDict.get var default_settings = Some default_value →
  value ≠ default_value →
  let w1 := (set repr profile_name [var +:+ "=" +:+ value] w).2 in
  ∃ output,
    inspect repr active active_settings default_settings env_settings
      (Some profile_name) show_defaults show_sources w1 = (Done output, w1)
    ∧ setting_line show_sources
        (var, value,
         if decide (PyDict.get var env_settings = Some value) then "env" else "profile")
      ∈ output.
Proof.
  intros Hp Henv Hlt Hwf Hwfe Hvar Hvalue Hknown Heknown Hdefault Hne w1.
  assert (Hw1 : w1 = let h := <[env := PyDict.setitem var value (deref w env)]> (heap w) in
                     World (profiles w) h (snapshot (World (profiles w) h (file w)))).
  { subst w1. unfold set, bind, profile_ref. rewrite Henv.
    change [var +:+ "=" +:+ value]
      with ((λ p : string * string, p.1 +:+ "=" +:+ p.2) <$> [(var, value)]).
    rewrite (parse_variables_tokens repr [(var, value)] [] w)
      by (repeat constructor; done).
    by rewrite assign_variables_run by done. }
  cbn zeta in Hw1.
  assert (Hread : deref w1 env = PyDict.setitem var value (deref w env))
    by (rewrite Hw1; by apply deref_insert).
  assert (Hprof : profiles w1 = profiles w) by by rewrite Hw1.
  set (differs := λ item : string * string,
         PyDict.get item.1 default_settings ≠ Some item.2).
  assert (Hentries :
    override_entries (PyDict.setitem var value (deref w env)) env_settings
      default_settings
    = Done ((λ item, (item.1, item.2,
                      source_of (filter differs env_settings) item.1 item.2))
              <$> filter differs (PyDict.setitem var value (deref w env)))).
  { unfold override_entries.
    rewrite (overrides_of_known default_settings env_settings []) by done.
    rewrite (overrides_of_known default_settings
               (PyDict.setitem var value (deref w env)) []); [done| |].
    - by apply wf_setitem.
    - intros x Hx%PyDictFacts.contains_keys.
      rewrite PyDictFacts.contains_setitem in Hx.
      destruct (String.eqb_spec x var) as [Heq|Hneq].
      + rewrite Heq. apply PyDictFacts.get_contains. eauto.
      + apply Hknown. by apply PyDictFacts.contains_keys. }
  eexists. split.
  { unfold inspect, bind, has_profile, profile_ref, read, ret, truthy.
    destruct (String.eqb_spec profile_name "") as [|_]; [done|].
    rewrite Hprof.
    assert (PyDict.contains profile_name (profiles w) = true) as ->
      by (apply PyDictFacts.get_contains; eauto).
    rewrite Hprof, Henv. cbn [fst snd]. rewrite Hread, Hentries. reflexivity. }
  apply elem_of_app. right. apply elem_of_app. left.
  apply list_elem_of_fmap. eexists. split; [reflexivity|].
  rewrite <- (source_of_overrides default_settings env_settings var value)
    by (try done; rewrite Hdefault; congruence).
  apply (list_elem_of_fmap_2
           (λ item : string * string,
              (item.1, item.2, source_of (filter differs env_settings) item.1 item.2))
           _ (var, value)).
  apply list_elem_of_filter. split.
  - unfold differs. simpl. rewrite Hdefault. congruence.
  - apply PyDictFacts.get_elem_of, PyDictFacts.get_setitem_eq.
Qed.

Lemma X21_inspect_shows_what_set_stored_witness :
  let w := World [("default", 0)] [[("A", "1")]] [("default", [("A", "1")])] in
  let default_settings := [("A", "0"); ("B", "0")] in
  let env_settings := [("A", "0"); ("B", "5")] in
  let w1 := (set repr_plain "default" ["B" +:+ "=" +:+ "5"] w).2 in
  ∃ output,
    inspect repr_plain "default" [] default_settings env_settings
      (Some "default") false true w1 = (Done output, w1)
    ∧ setting_line true
        ("B", "5",
         if decide (PyDict.get "B" env_settings = Some "5") then "env" else "profile")
      ∈ output.
Proof.
  intros w default_settings env_settings.
  apply (X21_inspect_shows_what_set_stored repr_plain "default" [] default_settings
           env_settings "default" 0 "B" "5" "0" false true w).
  - discriminate.
  - reflexivity.
  - simpl. lia.
  - unfold PyDict.wf. compute_done.
  - unfold PyDict.wf. compute_done.
  - reflexivity.
  - reflexivity.
  - intros x Hx. apply list_elem_of_In in Hx. simpl in Hx.
    destruct Hx as [<-|[]]; reflexivity.
  - intros x Hx. apply list_elem_of_In in Hx. simpl in Hx.
    destruct Hx as [<-|[<-|[]]]; reflexivity.
  - reflexivity.
  - discriminate.
Defined.

(** ** Instances *)

Lemma X1_parse_variable_round_trip_witness :
  parse_variable "PREFECT_API_URL=http://localhost" = Some ("PREFECT_API_URL", "http://localhost").
Proof.
  apply (X1_parse_variable_round_trip "PREFECT_API_URL=http://localhost"
           "PREFECT_API_URL" "http://localhost").
  split_and!; reflexivity.
Defined.

Lemma X11_file_written_on_success_only_witness :
  let w := World [("default", 0)] [[("A", "1")]] [("default", [])] in
  (unset repr_plain "default" ["A"; "B"] w).2 ≠ w
  ∧ file (unset repr_plain "default" ["A"; "B"] w).2 = file w
  ∧ file (set repr_plain "default" ["B=2"] w).2
    = snapshot (set repr_plain "default" ["B=2"] w).2
  ∧ (rm repr_plain "job" w).2 = w.
Proof.
  intros w.
  destruct (X11_file_written_on_success_only repr_plain w)
    as (Hset & Hunset & _ & Hrm & _).
  split_and!.
  - vm_compute. discriminate.
  - apply (Hunset "default" ["A"; "B"]).
  - apply (Hset "default" ["B=2"]).
  - apply (Hrm "job").
Defined.

Lemma X17_inspect_reads_only_witness :
  let w := World [("default", 0)] [[("A", "1")]] [("default", [("A", "1")])] in
  (inspect repr_plain "default" [] [] [] (Some "job") true true w).1
  = Raised (profile_not_found repr_plain "job").
Proof.
  intros w.
  apply (proj2 (X17_inspect_reads_only repr_plain "default" [] [] [] (Some "job")
                  true true w) "job"); reflexivity.
Defined.
